(** * cryptoNER preprocessing: a shallow embedding of [scripts/preprocess.py]

    The script converts Label Studio annotation tasks into spaCy documents
    ([create_spacy_docs]) and splits the documents into a [train], a [dev]
    and a [test] partition ([train_test_dev_split]).

    Conventions of the embedding:
    - Python exceptions are values of [exn]; code that may raise lives in
      the error monad [exc];
    - code that mutates objects visible to its caller (the module-level
      random generator, the list bound to [docs], the output directory)
      lives in the state-and-error monad [M] over [World];
    - the libraries the script calls (spaCy, [random], the zip reader and the
      float arithmetic of the interpreter) and the file system are
      interfaces, given as type classes: every theorem holds for all their
      implementations. *)

From Stdlib Require Import ZArith QArith Ascii.
From stdpp Require Import base option list strings pretty gmap.

Local Open Scope Z_scope.
Local Open Scope string_scope.
Local Open Scope list_scope.

(** ** Exceptions and the error monad *)

Inductive exn : Type :=
  | KeyError (msg : string)
  | ValueError (msg : string)
  | FileNotFoundError (msg : string)
  | IndexError
  | ZeroDivisionError
  | OtherError (cls : string).

Inductive exc (A : Type) : Type :=
  | Ok (a : A)
  | Raise (e : exn).
Arguments Ok {A} a.
Arguments Raise {A} e.

#[global] Instance exc_ret : MRet exc := fun A a => Ok a.
#[global] Instance exc_bind : MBind exc := fun A B f m =>
  match m with
  | Ok a => f a
  | Raise e => Raise e
  end.

(** ** Label Studio tasks

    The records follow the shape the script reads:
    [task["completions"][k]["result"][n]["value"]["start" | "end" | "labels"]],
    the optional key [completion["was_cancelled"]] and
    [task["data"]["reddit"]].  They are the tasks that carry these keys: a
    task that lacks one, on which the script raises [KeyError], is not a
    value of these types. *)

Record Value : Type := mkValue
  { v_start : Z;
    v_end : Z;
    v_labels : list string }.

Record ResultEntry : Type := mkResultEntry
  { value : Value }.

Record Completion : Type := mkCompletion
  { result : list ResultEntry;
    (* [Some b] when the key "was_cancelled" is present, with value [b] *)
    was_cancelled : option bool }.

Record Task : Type := mkTask
  { completions : list Completion;
    data_reddit : string }.

(** An annotated entity: the tuple [(start, end, label)] of line 66. *)
Definition Annotation : Type := Z * Z * string.

(** ** spaCy documents *)

Record Token : Type := mkToken
  { tok_idx : nat;
    tok_text : string }.

Record Span : Type := mkSpan
  { span_start : nat;
    span_end : nat;
    span_label : string }.

Record Doc : Type := mkDoc
  { doc_text : string;
    doc_tokens : list Token;
    doc_ents : list Span }.

(** The spaCy calls of [create_spacy_docs].  None of them is wrapped in a
    [try]: whatever they raise leaves [create_spacy_docs]. *)
Class Spacy : Type :=
  { (* [nlp(raw_text)] with [nlp = spacy.blank("en")] *)
    nlp : string -> exc Doc;
    offsets_to_biluo_tags : Doc -> list Annotation -> exc (list string);
    biluo_tags_to_spans : Doc -> list string -> exc (list Span);
    (* [doc.ents = entities]; reading [doc.ents] afterwards gives the
       [doc_ents] of the document returned here *)
    set_ents : Doc -> list Span -> exc Doc }.

(** ** [create_spacy_docs] *)

Module Convert.

(** The accumulators of the conversion loop.  The script returns
    [(docs, tot_ents)] and prints [misaligned] in its summary table. *)
Record Acc : Type := mkAcc
  { docs : list Doc;
    tot_ents : Z;
    misaligned : Z }.

Definition init : Acc := {| docs := []; tot_ents := 0; misaligned := 0 |}.

(** [ent["labels"][0]] *)
Definition first_label (ent : Value) : exc string :=
  match v_labels ent with
  | l :: _ => Ok l
  | [] => Raise IndexError
  end.

(** Lines 63-67: the loop over [completion["result"]]. *)
Fixpoint annotate (results : list ResultEntry) (annotated_entities : list Annotation)
  : exc (list Annotation) :=
  match results with
  | [] => Ok annotated_entities
  | r :: results' =>
      let ent := value r in
      label ← first_label ent;
      let entity := (v_start ent, v_end ent, label) in
      annotate results' (annotated_entities ++ [entity])
  end.

Section WithSpacy.
Context `{Spacy}.

(** Lines 69-77: tokenise, tag, resolve the spans and update the counters. *)
Definition align (acc : Acc) (raw_text : string) (annotated_entities : list Annotation)
  : exc Acc :=
  doc ← nlp raw_text;
  tags ← offsets_to_biluo_tags doc annotated_entities;
  entities ← biluo_tags_to_spans doc tags;
  doc ← set_ents doc entities;
  mret {| docs := docs acc ++ [doc];
          tot_ents := tot_ents acc + Z.of_nat (length annotated_entities);
          misaligned := misaligned acc
            + (Z.of_nat (length annotated_entities) - Z.of_nat (length (doc_ents doc))) |}.

(** Lines 53-77: the body of the loop over [completed_tasks]. *)
Definition process_task (acc : Acc) (task : Task) : exc Acc :=
  match completions task with
  | [completion] =>
      match was_cancelled completion with
      | Some _ => Ok acc
      | None =>
          let raw_text := data_reddit task in
          annotated_entities ← annotate (result completion) [];
          align acc raw_text annotated_entities
      end
  | _ => Ok acc
  end.

Fixpoint tasks_loop (acc : Acc) (completed_tasks : list Task) : exc Acc :=
  match completed_tasks with
  | [] => Ok acc
  | task :: rest => acc' ← process_task acc task; tasks_loop acc' rest
  end.

Definition create_spacy_docs (completed_tasks : list Task) : exc Acc :=
  tasks_loop init completed_tasks.

End WithSpacy.

End Convert.

(** ** The interpreter's arithmetic and the [random] module *)

(** Floats.  [cur_dev_ratio < dev_size] compares floats ([flt]) and
    [dev_count / tot_ents] is the true division of two ints ([truediv], used
    only with a non-zero divisor: see [divide]).  The ratios start as the
    int 0, which compares as [float_zero].  The dividends are sums of
    lengths of lists held in memory, far from the range where the division
    of two ints overflows a float. *)
Class FloatOps : Type :=
  { float : Type;
    float_zero : float;
    truediv : Z -> Z -> float;
    flt : float -> float -> bool }.

(** The generator behind [random.seed] and [random.shuffle]: [seed a] is
    the state after [random.seed(a)], [randbelow n g] draws an index below
    [n] from the state [g] and returns the next state. *)
Class Random : Type :=
  { rng_state : Type;
    seed : Z -> rng_state;
    randbelow : nat -> rng_state -> nat * rng_state;
    randbelow_lt : forall n g, (0 < n)%nat -> ((randbelow n g).1 < n)%nat }.

(** ** The file system

    [out_dir.mkdir(exist_ok=True)] and the opening of a file for writing
    fail with an [OSError]: a missing parent directory, a path that is a
    file or a directory where the other is needed, a refused permission.
    Which one, if any, is the operating system's answer for the path and
    the files present. *)
Inductive os_error : Type :=
  | FileNotFound
  | FileExists
  | IsADirectory
  | NotADirectory
  | PermissionDenied
  | OtherOSError.

(** The exception Python raises for an [OSError] on [path]. *)
Definition raise_os (e : os_error) (path : string) : exn :=
  match e with
  | FileNotFound => FileNotFoundError path
  | FileExists => OtherError "FileExistsError"
  | IsADirectory => OtherError "IsADirectoryError"
  | NotADirectory => OtherError "NotADirectoryError"
  | PermissionDenied => OtherError "PermissionError"
  | OtherOSError => OtherError "OSError"
  end.

Class Disk : Type :=
  { (* the error of [Path(out_dir).mkdir(exist_ok=True)], if it fails *)
    mkdir_error : string -> gmap string (list Doc) -> option os_error;
    (* the error of opening [path] for writing, if it fails *)
    write_error : string -> gmap string (list Doc) -> option os_error }.

(** ** [train_test_dev_split] *)

Module Split.

(** The local variables of lines 110-116. *)
Record Parts `{FloatOps} : Type := mkParts
  { train_docs : list Doc;
    dev_docs : list Doc;
    test_docs : list Doc;
    train_count : Z;
    dev_count : Z;
    test_count : Z;
    cur_train_ratio : float;
    cur_dev_ratio : float;
    cur_test_ratio : float }.

Section WithFloat.
Context `{FloatOps}.

Definition init : Parts :=
  {| train_docs := []; dev_docs := []; test_docs := [];
     train_count := 0; dev_count := 0; test_count := 0;
     cur_train_ratio := float_zero; cur_dev_ratio := float_zero;
     cur_test_ratio := float_zero |}.

(** [a / b] on ints: a zero divisor raises. *)
Definition divide (a b : Z) : exc float :=
  if decide (b = 0) then Raise ZeroDivisionError else Ok (truediv a b).

(** Lines 122-135: the body of the loop over the shuffled [docs]. *)
Definition assign (tot_ents : Z) (test_size dev_size : float)
    (st : Parts) (doc : Doc) : exc Parts :=
  let num_entities := Z.of_nat (length (doc_ents doc)) in
  if flt (cur_dev_ratio st) dev_size then
    let dev_count' := dev_count st + num_entities in
    ratio ← divide dev_count' tot_ents;
    mret {| train_docs := train_docs st;
            dev_docs := dev_docs st ++ [doc];
            test_docs := test_docs st;
            train_count := train_count st;
            dev_count := dev_count';
            test_count := test_count st;
            cur_train_ratio := cur_train_ratio st;
            cur_dev_ratio := ratio;
            cur_test_ratio := cur_test_ratio st |}
  else if flt (cur_test_ratio st) test_size then
    let test_count' := test_count st + num_entities in
    ratio ← divide test_count' tot_ents;
    mret {| train_docs := train_docs st;
            dev_docs := dev_docs st;
            test_docs := test_docs st ++ [doc];
            train_count := train_count st;
            dev_count := dev_count st;
            test_count := test_count';
            cur_train_ratio := cur_train_ratio st;
            cur_dev_ratio := cur_dev_ratio st;
            cur_test_ratio := ratio |}
  else
    let train_count' := train_count st + num_entities in
    ratio ← divide train_count' tot_ents;
    mret {| train_docs := train_docs st ++ [doc];
            dev_docs := dev_docs st;
            test_docs := test_docs st;
            train_count := train_count';
            dev_count := dev_count st;
            test_count := test_count st;
            cur_train_ratio := ratio;
            cur_dev_ratio := cur_dev_ratio st;
            cur_test_ratio := cur_test_ratio st |}.

Fixpoint assign_loop (tot_ents : Z) (test_size dev_size : float)
    (st : Parts) (docs : list Doc) : exc Parts :=
  match docs with
  | [] => Ok st
  | doc :: rest =>
      st' ← assign tot_ents test_size dev_size st doc;
      assign_loop tot_ents test_size dev_size st' rest
  end.

(** Line 138: [any(len(partition) == 0 for partition in [train_docs, test_docs, dev_docs])] *)
Definition any_empty (st : Parts) : bool :=
  existsb (fun partition : list Doc => Nat.eqb (length partition) 0)
          [train_docs st; test_docs st; dev_docs st].

(** Lines 139-140: the message of the [ValueError]. *)
Definition empty_message (st : Parts) : string :=
  "One or more partitions are empty! "
  +:+ "train: " +:+ pretty (length (train_docs st))
  +:+ ", test: " +:+ pretty (length (test_docs st))
  +:+ ", dev: " +:+ pretty (length (dev_docs st)).

End WithFloat.

Section WithWorld.
Context `{Random} `{FloatOps} `{Disk}.

(** What the function shares with its caller: the module-level generator
    of [random], the list object bound to [docs], and the [.spacy] files
    on disk (path to the documents of the [DocBin] written there). *)
Record World : Type := mkWorld
  { w_rng : rng_state;
    w_docs : list Doc;
    w_files : gmap string (list Doc) }.

Definition M (A : Type) : Type := World -> World * exc A.

#[local] Instance M_ret : MRet M := fun A a w => (w, Ok a).
#[local] Instance M_bind : MBind M := fun A B f m w =>
  match m w with
  | (w', Ok a) => f a w'
  | (w', Raise e) => (w', Raise e)
  end.

Definition lift {A} (r : exc A) : M A := fun w => (w, r).

(** [random.seed(a)] *)
Definition random_seed (a : Z) : M unit := fun w =>
  ({| w_rng := seed a; w_docs := w_docs w; w_files := w_files w |}, Ok tt).

Definition draw (n : nat) : M nat := fun w =>
  let (j, g) := randbelow n (w_rng w) in
  ({| w_rng := g; w_docs := w_docs w; w_files := w_files w |}, Ok j).

(** [x[i], x[j] = x[j], x[i]]: both reads come first, then [x[i]] is
    written, then [x[j]]; an index out of range raises. *)
Definition swap (x : list Doc) (i j : nat) : exc (list Doc) :=
  match x !! j, x !! i with
  | Some xj, Some xi => Ok (<[j := xi]> (<[i := xj]> x))
  | _, _ => Raise IndexError
  end.

Definition swap_docs (i j : nat) : M unit := fun w =>
  match swap (w_docs w) i j with
  | Ok x => ({| w_rng := w_rng w; w_docs := x; w_files := w_files w |}, Ok tt)
  | Raise e => (w, Raise e)
  end.

(** The loop of [random.shuffle(x)]:
    [for i in reversed(range(1, len(x))): j = randbelow(i + 1); swap]. *)
Fixpoint shuffle_loop (indices : list nat) : M unit :=
  match indices with
  | [] => mret tt
  | i :: rest => j ← draw (S i); swap_docs i j;; shuffle_loop rest
  end.

(** [random.shuffle(docs)], in place on the caller's list. *)
Definition random_shuffle : M unit := fun w =>
  shuffle_loop (rev (seq 1 (length (w_docs w) - 1))) w.

Definition get_docs : M (list Doc) := fun w => (w, Ok (w_docs w)).

(** [out_dir.mkdir(exist_ok=True)], line 151: raises when the operating
    system refuses; the directory it creates is not a file of [w_files]. *)
Definition mkdir (out_dir : string) : M unit := fun w =>
  match mkdir_error out_dir (w_files w) with
  | Some e => (w, Raise (raise_os e out_dir))
  | None => (w, Ok tt)
  end.

(** [DocBin(docs=ds).to_disk(path)]: raises when the file cannot be opened
    for writing, else the file holds [ds], replacing what it held. *)
Definition to_disk (path : string) (ds : list Doc) : M unit := fun w =>
  match write_error path (w_files w) with
  | Some e => (w, Raise (raise_os e path))
  | None =>
      ({| w_rng := w_rng w; w_docs := w_docs w; w_files := <[path := ds]> (w_files w) |},
       Ok tt)
  end.

(** Lines 118-135: seed, shuffle and the assignment loop. *)
Definition partition (tot_ents : Z) (test_size dev_size : float) : M Parts :=
  random_seed 42;;
  random_shuffle;;
  docs ← get_docs;
  lift (assign_loop tot_ents test_size dev_size init docs).

(** The whole function.  [docs] is the list in [w_docs]; the result
    [None] is [tt]; the summary table printed before the directory is
    made is left out. *)
Definition train_test_dev_split (tot_ents : Z) (out_dir : string)
    (test_size dev_size : float) : M unit :=
  st ← partition tot_ents test_size dev_size;
  if any_empty st then lift (Raise (ValueError (empty_message st)))
  else
    mkdir out_dir;;
    to_disk (out_dir +:+ "/train.spacy") (train_docs st);;
    to_disk (out_dir +:+ "/dev.spacy") (dev_docs st);;
    to_disk (out_dir +:+ "/test.spacy") (test_docs st).

(** ** [main] *)

Context `{Spacy}.
(** [unzip(zip_file)], the reader of the Label Studio export. *)
Variable unzip : string -> exc (list Task).

(** [docs, tot_ents = create_spacy_docs(tasks)] binds [docs] to a new list. *)
Definition bind_docs (ds : list Doc) : M unit := fun w =>
  ({| w_rng := w_rng w; w_docs := ds; w_files := w_files w |}, Ok tt).

(** The [except] clauses of [main]: [KeyError], [ValueError] and
    [FileNotFoundError] are printed, anything else propagates. *)
Definition caught (e : exn) : bool :=
  match e with
  | KeyError _ | ValueError _ | FileNotFoundError _ => true
  | IndexError | ZeroDivisionError | OtherError _ => false
  end.

Definition main (zip_file out_dir : string) (test_size dev_size : float) : M unit :=
  fun w =>
    let body : M unit :=
      tasks ← lift (unzip zip_file);
      conv ← lift (Convert.create_spacy_docs tasks);
      bind_docs (Convert.docs conv);;
      train_test_dev_split (Convert.tot_ents conv) out_dir test_size dev_size in
    match body w with
    | (w', Raise e) => if caught e then (w', Ok tt) else (w', Raise e)
    | (w', Ok tt) => (w', Ok tt)
    end.

End WithWorld.

End Split.


(** ** The task filter, as the specification words it

    "Include a Task iff it has exactly one Completion and that Completion
    carries no cancellation marker"; the output is the list of
    (raw text, annotation list) pairs, every annotation normalised to
    (start, end, first label). *)

Module TaskFilter.

Definition admits (t : Task) : Prop :=
  length (completions t) = 1%nat
  /\ Forall (fun c => was_cancelled c = None) (completions t).

#[global] Instance admits_dec (t : Task) : Decision (admits t).
Proof. unfold admits. apply _. Defined.

Definition normalize (r : ResultEntry) : Annotation :=
  (v_start (value r), v_end (value r), hd "" (v_labels (value r))).

Definition contribution (t : Task) : string * list Annotation :=
  (data_reddit t, map normalize (concat (map result (completions t)))).

Definition task_filter (tasks : list Task) : list (string * list Annotation) :=
  map contribution (filter admits tasks).

(** Every result of every admitted task carries at least one label. *)
Definition labelled (tasks : list Task) : Prop :=
  Forall (fun t => admits t ->
            Forall (fun c => Forall (fun r => v_labels (value r) <> []) (result c))
                   (completions t))
         tasks.

(** The alignment engine run over the filtered pairs, in order. *)
Fixpoint align_all `{Spacy} (acc : Convert.Acc) (pairs : list (string * list Annotation))
  : exc Convert.Acc :=
  match pairs with
  | [] => Ok acc
  | (raw_text, annotated_entities) :: rest =>
      acc' ← Convert.align acc raw_text annotated_entities;
      align_all acc' rest
  end.

End TaskFilter.

(** ** Observing the assignment loop *)

Inductive partition_name : Type := Train | Dev | Test.

Definition docs_of `{FloatOps} (p : partition_name) (st : Split.Parts) : list Doc :=
  match p with
  | Train => Split.train_docs st
  | Dev => Split.dev_docs st
  | Test => Split.test_docs st
  end.

(** One iteration took [st] to [st'] and appended [doc] to partition [p]. *)
Definition receives `{FloatOps} (p : partition_name) (st st' : Split.Parts) (doc : Doc)
  : Prop :=
  docs_of p st' = docs_of p st ++ [doc].

(** Partition [p] has the same documents in [st] and [st']. *)
Definition untouched `{FloatOps} (p : partition_name) (st st' : Split.Parts) : Prop :=
  docs_of p st' = docs_of p st.

(** The running ratio of [dev] (of [test]) is still below its target. *)
Definition dev_below `{FloatOps} (dev_size : float) (st : Split.Parts) : bool :=
  flt (Split.cur_dev_ratio st) dev_size.

Definition test_below `{FloatOps} (test_size : float) (st : Split.Parts) : bool :=
  flt (Split.cur_test_ratio st) test_size.

(** The entities resolved into a list of documents. *)
Definition resolved (ds : list Doc) : Z :=
  foldr (fun d n => Z.of_nat (length (doc_ents d)) + n) 0 ds.

(** The counters balance: annotations seen = entities resolved + misaligned. *)
Definition balanced (acc : Convert.Acc) : Prop :=
  Convert.tot_ents acc = resolved (Convert.docs acc) + Convert.misaligned acc.

(** All the documents assigned so far. *)
Definition all_docs `{FloatOps} (st : Split.Parts) : list Doc :=
  Split.train_docs st ++ Split.dev_docs st ++ Split.test_docs st.

(** The world after [random.seed(42); random.shuffle(docs)]. *)
Definition shuffled `{Random} `{FloatOps} (w : Split.World) : Split.World :=
  (Split.random_shuffle (Split.random_seed 42 w).1).1.

(** The world after the three [to_disk] calls of lines 154-156. *)
Definition written `{Random} `{FloatOps} (out_dir : string) (st : Split.Parts)
    (w : Split.World) : Split.World :=
  {| Split.w_rng := Split.w_rng w;
     Split.w_docs := Split.w_docs w;
     Split.w_files :=
       <[out_dir +:+ "/test.spacy" := Split.test_docs st]>
         (<[out_dir +:+ "/dev.spacy" := Split.dev_docs st]>
            (<[out_dir +:+ "/train.spacy" := Split.train_docs st]> (Split.w_files w))) |}.

(** Lines 151-156: make the directory, then write the three files. *)
Section Persist.
Context `{Random} `{FloatOps} `{Disk}.
#[local] Existing Instances Split.M_ret Split.M_bind.

Definition persist (out_dir : string) (st : Split.Parts) : Split.M unit :=
  Split.mkdir out_dir;;
  Split.to_disk (out_dir +:+ "/train.spacy") (Split.train_docs st);;
  Split.to_disk (out_dir +:+ "/dev.spacy") (Split.dev_docs st);;
  Split.to_disk (out_dir +:+ "/test.spacy") (Split.test_docs st).

End Persist.

(** The files after the first write, and after the first two. *)
Definition train_written `{FloatOps} (out_dir : string) (st : Split.Parts)
    (files : gmap string (list Doc)) : gmap string (list Doc) :=
  <[out_dir +:+ "/train.spacy" := Split.train_docs st]> files.

Definition dev_written `{FloatOps} (out_dir : string) (st : Split.Parts)
    (files : gmap string (list Doc)) : gmap string (list Doc) :=
  <[out_dir +:+ "/dev.spacy" := Split.dev_docs st]> (train_written out_dir st files).


(** ** Implementations of the interfaces, to run the model

    The theorems below hold for every implementation; these ones make the
    definitions executable on examples. *)

Module Sample.

(** Exact rational arithmetic in place of binary floats. *)
#[local] Instance rational : FloatOps :=
  {| float := Q;
     float_zero := 0%Q;
     truediv := fun a b => (inject_Z a / inject_Z b)%Q;
     flt := fun a b => match (a ?= b)%Q with Lt => true | _ => false end |}.

(** A linear congruential generator. *)
Definition lcg_next (g : N) : N := ((g * 1103515245 + 12345) mod 2147483648)%N.

Definition lcg_below (n : nat) (g : N) : nat * N :=
  (N.to_nat (g mod N.of_nat n)%N, lcg_next g).

Lemma lcg_below_lt (n : nat) (g : N) : (0 < n)%nat -> ((lcg_below n g).1 < n)%nat.
Proof.
  intros Hn. cbn [lcg_below fst].
  assert (g mod N.of_nat n < N.of_nat n)%N by (apply N.mod_lt; lia).
  lia.
Qed.

#[local] Instance lcg : Random :=
  {| rng_state := N;
     seed := fun a => Z.to_N a;
     randbelow := lcg_below;
     randbelow_lt := lcg_below_lt |}.

(** A stand-in for spaCy: tokens are the maximal runs without a space, and
    an annotation is resolved when it covers exactly one token. *)
Definition flush (cur : option (nat * string)) : list Token :=
  match cur with
  | Some (i, w) => [mkToken i w]
  | None => []
  end.

Fixpoint tokens_from (pos : nat) (cur : option (nat * string)) (s : string) : list Token :=
  match s with
  | EmptyString => flush cur
  | String c s' =>
      if Ascii.eqb c " "%char then flush cur ++ tokens_from (S pos) None s'
      else
        let cur' := match cur with
                    | Some (i, w) => (i, w +:+ String c EmptyString)
                    | None => (pos, String c EmptyString)
                    end in
        tokens_from (S pos) (Some cur') s'
  end.

Definition covers (t : Token) (a : Annotation) : bool :=
  let '(s, e, _) := a in
  Z.eqb s (Z.of_nat (tok_idx t))
  && Z.eqb e (Z.of_nat (tok_idx t + String.length (tok_text t))).

Definition tag_of (anns : list Annotation) (t : Token) : string :=
  match filter (fun a => covers t a = true) anns with
  | (_, _, l) :: _ => "U-" +:+ l
  | [] => "O"
  end.

Fixpoint spans_from (i : nat) (tags : list string) : list Span :=
  match tags with
  | [] => []
  | tag :: rest =>
      match tag with
      | String "U" (String "-" l) => mkSpan i (S i) l :: spans_from (S i) rest
      | _ => spans_from (S i) rest
      end
  end.

#[local] Instance words : Spacy :=
  {| nlp := fun text => Ok (mkDoc text (tokens_from 0 None text) []);
     offsets_to_biluo_tags := fun doc anns => Ok (map (tag_of anns) (doc_tokens doc));
     biluo_tags_to_spans := fun _ tags => Ok (spans_from 0 tags);
     set_ents := fun doc ents => Ok (mkDoc (doc_text doc) (doc_tokens doc) ents) |}.

(** A file system where nothing exists under [nope] and where
    [locked/dev.spacy] is a directory. *)
#[local] Instance disk : Disk :=
  {| mkdir_error := fun out_dir _ =>
       if String.prefix "nope/" out_dir then Some FileNotFound else None;
     write_error := fun path _ =>
       if String.eqb path "locked/dev.spacy" then Some IsADirectory else None |}.

(** Example inputs. *)
Definition entry (s e : Z) (l : string) : ResultEntry := mkResultEntry (mkValue s e [l]).

Definition task_btc : Task :=
  mkTask [mkCompletion [entry 4 7 "COIN"; entry 0 2 "COIN"] None] "buy BTC now".
Definition task_skipped : Task :=
  mkTask [mkCompletion [] (Some true)] "skipped".
Definition task_twice : Task :=
  mkTask [mkCompletion [entry 0 3 "COIN"] None; mkCompletion [] None] "ETH up".
Definition task_empty : Task := mkTask [] "nothing".
Definition task_eth : Task :=
  mkTask [mkCompletion [entry 0 3 "COIN"; entry 8 11 "COIN"] None] "ETH and BTC".

Definition tasks : list Task := [task_btc; task_skipped; task_twice; task_empty; task_eth].

Definition doc_n (name : string) (n : nat) : Doc :=
  mkDoc name [] (replicate n (mkSpan 0 1 "COIN")).

Definition five_docs : list Doc :=
  [doc_n "a" 1; doc_n "b" 1; doc_n "c" 1; doc_n "d" 1; doc_n "e" 1].

Definition world (ds : list Doc) : Split.World :=
  Split.mkWorld 7%N ds ∅.

Definition fifth : float := (1 # 5)%Q.

(** The conversion of [tasks]. *)
Definition converted : Convert.Acc :=
  Eval vm_compute in
    match Convert.create_spacy_docs tasks with
    | Ok acc => acc
    | Raise _ => Convert.init
    end.

(** The loop of the split on [a; b], with a total of 5 and both targets 1/5:
    the state after [a], and the state after [b]. *)
Definition after_a : Split.Parts :=
  Eval vm_compute in
    match Split.assign_loop 5 fifth fifth Split.init [doc_n "a" 1] with
    | Ok st => st
    | Raise _ => Split.init
    end.

Definition after_b : Split.Parts :=
  Eval vm_compute in
    match Split.assign 5 fifth fifth after_a (doc_n "b" 1) with
    | Ok st => st
    | Raise _ => Split.init
    end.

(** A task without annotations, and an archive holding it. *)
Definition task_plain : Task := mkTask [mkCompletion [] None] "nothing to see".

Definition unzip (zip_file : string) : exc (list Task) :=
  if String.eqb zip_file "export.zip" then Ok [task_plain]
  else Raise (FileNotFoundError zip_file).

End Sample.


(** ** Further notions for the conversion, the split and [main] *)

(** The result entries of the tasks the conversion loop does not skip. *)
Definition admitted_results (tasks : list Task) : list ResultEntry :=
  concat (map (fun t => concat (map result (completions t)))
              (filter TaskFilter.admits tasks)).

(** The ratio the loop holds for a partition whose documents are [ds]:
    the initial 0 until a document arrives, then entities over [tot_ents]. *)
Definition ratio_of `{FloatOps} (tot_ents : Z) (ds : list Doc) : float :=
  match ds with
  | [] => float_zero
  | _ :: _ => truediv (resolved ds) tot_ents
  end.

(** The paths of lines 154-156. *)
Definition train_path (out_dir : string) : string := out_dir +:+ "/train.spacy".
Definition dev_path (out_dir : string) : string := out_dir +:+ "/dev.spacy".
Definition test_path (out_dir : string) : string := out_dir +:+ "/test.spacy".

(** The counters of the loop agree with the documents of the partitions. *)
Definition counted `{FloatOps} (st : Split.Parts) : Prop :=
  Split.train_count st = resolved (Split.train_docs st)
  /\ Split.dev_count st = resolved (Split.dev_docs st)
  /\ Split.test_count st = resolved (Split.test_docs st).

(** The ratios of the loop are those of the documents of the partitions. *)
Definition tracked `{FloatOps} (tot_ents : Z) (st : Split.Parts) : Prop :=
  Split.cur_train_ratio st = ratio_of tot_ents (Split.train_docs st)
  /\ Split.cur_dev_ratio st = ratio_of tot_ents (Split.dev_docs st)
  /\ Split.cur_test_ratio st = ratio_of tot_ents (Split.test_docs st).

(** The documents [seen] so far lie in the partitions as three consecutive
    segments, [dev] first, and a later segment has started only after the
    earlier ones stopped being below their targets. *)
Definition in_segments `{FloatOps} (test_size dev_size : float)
    (seen : list Doc) (st : Split.Parts) : Prop :=
  seen = Split.dev_docs st ++ Split.test_docs st ++ Split.train_docs st
  /\ (Split.test_docs st <> [] \/ Split.train_docs st <> [] ->
        dev_below dev_size st = false)
  /\ (Split.train_docs st <> [] -> test_below test_size st = false).

(** Every document of [ds] arrived while the ratio of the documents before
    it was below [target]. *)
Definition filled_while_below `{FloatOps} (tot_ents : Z) (target : float)
    (ds : list Doc) : Prop :=
  forall p d q, ds = p ++ d :: q -> flt (ratio_of tot_ents p) target = true.

(** What an [except] clause of [main] makes of an exception. *)
Definition handle `{Random} (e : exn) (w : Split.World) : Split.World * exc unit :=
  if Split.caught e then (w, Ok tt) else (w, Raise e).

(** More sample data: the loop on five documents of one entity each. *)
Module SampleRuns.

Definition split_five : Split.Parts :=
  Eval vm_compute in
    match Split.assign_loop (H := Sample.rational) 5 Sample.fifth Sample.fifth
            Split.init Sample.five_docs with
    | Ok st => st
    | Raise _ => Split.init
    end.

Definition five_world : Split.World := Sample.world Sample.five_docs.

(** The same documents in another order, with another generator state. *)
Definition other_world : Split.World :=
  @Split.mkWorld Sample.lcg 99%N (reverse Sample.five_docs) ∅.

(** The partitions [train_test_dev_split] makes of [five_world]. *)
Definition parted : Split.Parts :=
  Eval vm_compute in
    match (@Split.partition Sample.lcg Sample.rational 5 Sample.fifth Sample.fifth
             five_world).2 with
    | Ok st => st
    | Raise _ => Split.init
    end.

(** An archive whose tasks are all skipped. *)
Definition unzip_skipped (zip_file : string) : exc (list Task) :=
  Ok [Sample.task_skipped; Sample.task_twice; Sample.task_empty].

(** An archive with three annotated tasks. *)
Definition task_sol : Task :=
  mkTask [mkCompletion [Sample.entry 0 3 "COIN"; Sample.entry 5 7 "COIN"] None] "SOL is up".

Definition three_tasks : list Task := [Sample.task_btc; Sample.task_eth; task_sol].

Definition converted_three : Convert.Acc :=
  Eval vm_compute in
    match @Convert.create_spacy_docs Sample.words three_tasks with
    | Ok acc => acc
    | Raise _ => Convert.init
    end.

Definition three_world : Split.World := Sample.world (Convert.docs converted_three).

Definition parted_three : Split.Parts :=
  Eval vm_compute in
    match (@Split.partition Sample.lcg Sample.rational (Convert.tot_ents converted_three)
             Sample.fifth Sample.fifth three_world).2 with
    | Ok st => st
    | Raise _ => Split.init
    end.

End SampleRuns.

(** * Properties of [create_spacy_docs] *)

Lemma exc_bind_ok {A B} (m : exc A) (f : A -> exc B) (b : B) :
  m ≫= f = Ok b -> exists a, m = Ok a /\ f a = Ok b.
Proof. destruct m as [a|e]; [eauto | discriminate]. Qed.

Section ConvertFacts.
Context `{Spacy}.

Lemma resolved_snoc (ds : list Doc) (d : Doc) :
  resolved (ds ++ [d]) = resolved ds + Z.of_nat (length (doc_ents d)).
Proof.
  unfold resolved. induction ds as [|d' ds IH]; simpl; [lia|].
  rewrite IH. lia.
Qed.

Lemma align_balanced acc raw_text anns acc' :
  balanced acc -> Convert.align acc raw_text anns = Ok acc' -> balanced acc'.
Proof.
  unfold Convert.align, balanced. intros Hb Hrun.
  apply exc_bind_ok in Hrun as (doc & _ & Hrun).
  apply exc_bind_ok in Hrun as (tags & _ & Hrun).
  apply exc_bind_ok in Hrun as (ents & _ & Hrun).
  apply exc_bind_ok in Hrun as (doc' & _ & Hrun).
  injection Hrun as <-. cbn [Convert.docs Convert.tot_ents Convert.misaligned].
  rewrite resolved_snoc. lia.
Qed.

(** The alignment step returns exactly when the four spaCy calls return:
    the script adds no failure of its own and handles none of theirs. *)
Lemma align_returns acc raw_text anns acc' :
  Convert.align acc raw_text anns = Ok acc'
  <-> exists doc tags ents doc',
        nlp raw_text = Ok doc
        /\ offsets_to_biluo_tags doc anns = Ok tags
        /\ biluo_tags_to_spans doc tags = Ok ents
        /\ set_ents doc ents = Ok doc'
        /\ acc' = {| Convert.docs := Convert.docs acc ++ [doc'];
                     Convert.tot_ents := Convert.tot_ents acc + Z.of_nat (length anns);
                     Convert.misaligned := Convert.misaligned acc
                       + (Z.of_nat (length anns) - Z.of_nat (length (doc_ents doc'))) |}.
Proof.
  unfold Convert.align. split.
  - intros Hrun.
    apply exc_bind_ok in Hrun as (doc & Hdoc & Hrun).
    apply exc_bind_ok in Hrun as (tags & Htags & Hrun).
    apply exc_bind_ok in Hrun as (ents & Hents & Hrun).
    apply exc_bind_ok in Hrun as (doc' & Hset & Hrun).
    injection Hrun as <-. by exists doc, tags, ents, doc'.
  - intros (doc & tags & ents & doc' & Hdoc & Htags & Hents & Hset & ->).
    rewrite Hdoc. simpl. rewrite Htags. simpl. rewrite Hents. simpl.
    rewrite Hset. reflexivity.
Qed.

Lemma process_task_balanced acc task acc' :
  balanced acc -> Convert.process_task acc task = Ok acc' -> balanced acc'.
Proof.
  unfold Convert.process_task. intros Hb Hrun.
  destruct (completions task) as [|c [|c' cs]]; try (injection Hrun as <-; exact Hb).
  destruct (was_cancelled c); [injection Hrun as <-; exact Hb|].
  apply exc_bind_ok in Hrun as (anns & _ & Hrun).
  eapply align_balanced; eauto.
Qed.

Lemma tasks_loop_balanced tasks : forall acc acc',
  balanced acc -> Convert.tasks_loop acc tasks = Ok acc' -> balanced acc'.
Proof.
  induction tasks as [|t tasks IH]; intros acc acc' Hb Hrun; simpl in Hrun.
  - injection Hrun as <-. exact Hb.
  - apply exc_bind_ok in Hrun as (acc1 & Hstep & Hrun).
    eapply IH; [|exact Hrun]. eapply process_task_balanced; eauto.
Qed.

(** C3. Entity conservation: whenever [create_spacy_docs] returns, the
    number of annotations seen ([tot_ents]) equals the number of entities
    resolved into the returned documents plus the misaligned count. *)
Theorem entity_conservation (completed_tasks : list Task) (conv : Convert.Acc) :
  Convert.create_spacy_docs completed_tasks = Ok conv ->
  Convert.tot_ents conv = resolved (Convert.docs conv) + Convert.misaligned conv.
Proof.
  intros Hrun. apply (tasks_loop_balanced completed_tasks Convert.init conv); [|exact Hrun].
  reflexivity.
Qed.

(** ** The filter inside the loop *)

Lemma annotate_labelled results : forall acc,
  Forall (fun r => v_labels (value r) <> []) results ->
  Convert.annotate results acc = Ok (acc ++ map TaskFilter.normalize results).
Proof.
  induction results as [|r results IH]; intros acc Hl; simpl.
  - by rewrite app_nil_r.
  - inversion Hl as [|? ? Hr Hrest]; subst.
    unfold Convert.first_label, TaskFilter.normalize.
    destruct (v_labels (value r)) as [|l ls]; [done|]. simpl.
    rewrite IH by assumption. by rewrite <- app_assoc.
Qed.

Lemma process_task_excluded acc task :
  ~ TaskFilter.admits task -> Convert.process_task acc task = Ok acc.
Proof.
  unfold Convert.process_task, TaskFilter.admits. intros Hn.
  destruct (completions task) as [|c [|c' cs]]; try reflexivity.
  destruct (was_cancelled c) eqn:Hc; [reflexivity|].
  exfalso. apply Hn. split; [reflexivity|]. by repeat constructor.
Qed.

Lemma process_task_admitted acc task :
  TaskFilter.admits task ->
  Forall (fun c => Forall (fun r => v_labels (value r) <> []) (result c)) (completions task) ->
  Convert.process_task acc task
  = Convert.align acc (TaskFilter.contribution task).1 (TaskFilter.contribution task).2.
Proof.
  unfold Convert.process_task, TaskFilter.admits, TaskFilter.contribution.
  intros [Hlen Hnone] Hlab.
  destruct (completions task) as [|c [|c' cs]]; try discriminate.
  inversion Hnone as [|? ? Hc _]; subst. rewrite Hc.
  inversion Hlab as [|? ? Hr _]; subst.
  rewrite annotate_labelled by assumption. simpl. by rewrite app_nil_r.
Qed.

Lemma tasks_loop_filter tasks : forall acc,
  TaskFilter.labelled tasks ->
  Convert.tasks_loop acc tasks = TaskFilter.align_all acc (TaskFilter.task_filter tasks).
Proof.
  unfold TaskFilter.task_filter.
  induction tasks as [|t tasks IH]; intros acc Hl; [reflexivity|].
  inversion Hl as [|? ? Ht Hrest]; subst. simpl.
  destruct (decide (TaskFilter.admits t)) as [Ha|Hn].
  - rewrite filter_cons_True by assumption.
    rewrite process_task_admitted by auto. simpl.
    destruct (Convert.align _ _ _) as [acc'|e]; simpl; auto.
  - rewrite filter_cons_False by assumption.
    rewrite process_task_excluded by assumption. simpl. auto.
Qed.

(** C7. The loop of [create_spacy_docs] filters the tasks as specified: a
    task that does not have exactly one completion without the
    ["was_cancelled"] key leaves the accumulators as they are and raises
    nothing (in particular a task with zero or several completions), and,
    when every result of the admitted tasks has a label, the function is
    the alignment run over [(raw text, [(start, end, first label)])] of the
    admitted tasks, in order. *)
Theorem task_filter_refines (completed_tasks : list Task) :
  TaskFilter.labelled completed_tasks ->
  (forall acc task, ~ TaskFilter.admits task -> Convert.process_task acc task = Ok acc)
  /\ (forall acc task, length (completions task) <> 1%nat ->
        Convert.process_task acc task = Ok acc)
  /\ Convert.create_spacy_docs completed_tasks
     = TaskFilter.align_all Convert.init (TaskFilter.task_filter completed_tasks).
Proof.
  intros Hl. split; [|split].
  - intros acc task. apply process_task_excluded.
  - intros acc task Hlen. apply process_task_excluded. intros [Hone _]. done.
  - by apply tasks_loop_filter.
Qed.

End ConvertFacts.


(** * Properties of [train_test_dev_split] *)

Section AssignFacts.
Context `{FloatOps}.
Variables (tot_ents : Z) (test_size dev_size : float).

#[local] Abbreviation assign := (Split.assign tot_ents test_size dev_size).
#[local] Abbreviation assign_loop := (Split.assign_loop tot_ents test_size dev_size).

(** The three branches of the loop body. *)
Ltac branches st :=
  unfold Split.assign, Split.divide, dev_below, test_below in *;
  destruct (flt (Split.cur_dev_ratio st) dev_size) eqn:?;
    [|destruct (flt (Split.cur_test_ratio st) test_size) eqn:?];
  destruct (decide (tot_ents = 0));
  unfold mbind, mret, exc_bind, exc_ret in *; simplify_eq/=.

Lemma snoc_neq {A} (l : list A) (x : A) : l <> l ++ [x].
Proof.
  intros Heq. apply (f_equal length) in Heq. rewrite length_app in Heq. simpl in Heq. lia.
Qed.

(** What one iteration does, read off the state before it. *)
Lemma assign_greedy st doc st' :
  assign st doc = Ok st' ->
  if dev_below dev_size st then
    receives Dev st st' doc /\ untouched Test st st' /\ untouched Train st st'
    /\ Split.cur_test_ratio st' = Split.cur_test_ratio st
  else if test_below test_size st then
    receives Test st st' doc /\ untouched Dev st st' /\ untouched Train st st'
    /\ Split.cur_dev_ratio st' = Split.cur_dev_ratio st
  else
    receives Train st st' doc /\ untouched Dev st st' /\ untouched Test st st'
    /\ Split.cur_dev_ratio st' = Split.cur_dev_ratio st
    /\ Split.cur_test_ratio st' = Split.cur_test_ratio st.
Proof.
  intros Hrun. unfold receives, untouched. branches st; auto.
Qed.

Lemma assign_defined st doc : tot_ents <> 0 -> exists st', assign st doc = Ok st'.
Proof. intros Hne. branches st; eauto. Qed.

Lemma assign_zero_divisor st doc : tot_ents = 0 -> assign st doc = Raise ZeroDivisionError.
Proof. intros Hz. branches st; auto. Qed.

Lemma assign_loop_defined docs : forall st,
  tot_ents <> 0 -> exists st', assign_loop st docs = Ok st'.
Proof.
  induction docs as [|d docs IH]; intros st Hne; simpl; [eauto|].
  destruct (assign_defined st d Hne) as [st1 ->]. simpl. auto.
Qed.



Lemma assign_loop_app pre post : forall st,
  assign_loop st (pre ++ post) = assign_loop st pre ≫= fun st' => assign_loop st' post.
Proof.
  induction pre as [|d pre IH]; intros st; simpl; [reflexivity|].
  destruct (assign st d) as [st1|e]; simpl; auto.
Qed.

Lemma assign_covers st doc st' :
  assign st doc = Ok st' -> all_docs st' ≡ₚ all_docs st ++ [doc].
Proof.
  intros Hrun. unfold all_docs. branches st; rewrite <- ?app_assoc.
  - do 2 apply Permutation_app_head. apply Permutation_app_comm.
  - reflexivity.
  - apply Permutation_app_head. rewrite (app_assoc (Split.dev_docs st)).
    apply Permutation_app_comm.
Qed.

Lemma assign_loop_covers docs : forall st st',
  assign_loop st docs = Ok st' -> all_docs st' ≡ₚ all_docs st ++ docs.
Proof.
  induction docs as [|d docs IH]; intros st st' Hrun; simpl in Hrun.
  - injection Hrun as <-. by rewrite app_nil_r.
  - apply exc_bind_ok in Hrun as (st1 & Hstep & Hrun).
    rewrite (IH _ _ Hrun), (assign_covers _ _ _ Hstep).
    by rewrite <- app_assoc.
Qed.

(** Once [dev] is no longer below its target it stays so and keeps its documents. *)
Lemma dev_saturated_step st doc st' :
  dev_below dev_size st = false -> assign st doc = Ok st' ->
  untouched Dev st st' /\ dev_below dev_size st' = false.
Proof.
  intros Hsat Hrun. pose proof (assign_greedy _ _ _ Hrun) as Hg.
  rewrite Hsat in Hg. unfold dev_below in *.
  destruct (test_below test_size st); destruct Hg as (_ & Hd & Hrest); split; auto.
  - destruct Hrest as (_ & ->). exact Hsat.
  - destruct Hrest as (_ & -> & _). exact Hsat.
Qed.

Lemma dev_saturated_loop docs : forall st st',
  dev_below dev_size st = false -> assign_loop st docs = Ok st' ->
  untouched Dev st st' /\ dev_below dev_size st' = false.
Proof.
  induction docs as [|d docs IH]; intros st st' Hsat Hrun; simpl in Hrun.
  - injection Hrun as <-. by split.
  - apply exc_bind_ok in Hrun as (st1 & Hstep & Hrun).
    destruct (dev_saturated_step _ _ _ Hsat Hstep) as [Hu Hsat1].
    destruct (IH _ _ Hsat1 Hrun) as [Hu' Hsat']. split; [|exact Hsat'].
    unfold untouched in *. congruence.
Qed.

(** The same for [test]: its ratio only moves when it receives a document. *)
Lemma test_saturated_step st doc st' :
  test_below test_size st = false -> assign st doc = Ok st' ->
  untouched Test st st' /\ test_below test_size st' = false.
Proof.
  intros Hsat Hrun. pose proof (assign_greedy _ _ _ Hrun) as Hg.
  rewrite Hsat in Hg. unfold test_below in *.
  destruct (dev_below dev_size st).
  - destruct Hg as (_ & Hu & _ & ->). by split.
  - destruct Hg as (_ & _ & Hu & _ & ->). by split.
Qed.

Lemma test_saturated_loop docs : forall st st',
  test_below test_size st = false -> assign_loop st docs = Ok st' ->
  untouched Test st st' /\ test_below test_size st' = false.
Proof.
  induction docs as [|d docs IH]; intros st st' Hsat Hrun; simpl in Hrun.
  - injection Hrun as <-. by split.
  - apply exc_bind_ok in Hrun as (st1 & Hstep & Hrun).
    destruct (test_saturated_step _ _ _ Hsat Hstep) as [Hu Hsat1].
    destruct (IH _ _ Hsat1 Hrun) as [Hu' Hsat']. split; [|exact Hsat'].
    unfold untouched in *. congruence.
Qed.

(** C5. Priority of the partitions during the loop.  At any point of a run
    of the loop (after any prefix [pre] of the documents, in state [st],
    with [doc] next): [test] receives [doc] only if [dev] is no longer below
    [dev_size]; [train] receives it only if neither [dev] nor [test] is
    below its target; and once [dev] (or [test]) is no longer below its
    target, it receives no further document, whatever documents follow. *)
Theorem fill_order (pre : list Doc) (doc : Doc) (st st' : Split.Parts) :
  assign_loop Split.init pre = Ok st ->
  assign st doc = Ok st' ->
  (receives Test st st' doc -> dev_below dev_size st = false)
  /\ (receives Train st st' doc ->
        dev_below dev_size st = false /\ test_below test_size st = false)
  /\ (dev_below dev_size st = false ->
        forall more st'', assign_loop st more = Ok st'' ->
          untouched Dev st st'' /\ dev_below dev_size st'' = false)
  /\ (test_below test_size st = false ->
        forall more st'', assign_loop st more = Ok st'' ->
          untouched Test st st'' /\ test_below test_size st'' = false).
Proof.
  intros _ Hstep. pose proof (assign_greedy _ _ _ Hstep) as Hg.
  unfold receives, untouched in *.
  split; [|split; [|split]].
  - intros Hrecv. destruct (dev_below dev_size st); [|reflexivity].
    destruct Hg as (_ & Hu & _). rewrite Hu in Hrecv. by apply snoc_neq in Hrecv.
  - intros Hrecv. destruct (dev_below dev_size st).
    { destruct Hg as (_ & _ & Hu & _). rewrite Hu in Hrecv. by apply snoc_neq in Hrecv. }
    destruct (test_below test_size st); [|by split].
    destruct Hg as (_ & _ & Hu & _). rewrite Hu in Hrecv. by apply snoc_neq in Hrecv.
  - intros Hsat more st'' Hrun. eapply dev_saturated_loop; eauto.
  - intros Hsat more st'' Hrun. eapply test_saturated_loop; eauto.
Qed.

End AssignFacts.

Section WorldFacts.
Context `{Random} `{FloatOps}.

Lemma swap_in_range (x : list Doc) (i j : nat) :
  (i < length x)%nat -> (j < length x)%nat ->
  exists x', Split.swap x i j = Ok x' /\ x' ≡ₚ x.
Proof.
  intros Hi Hj. unfold Split.swap.
  destruct (lookup_lt_is_Some_2 x i Hi) as [xi Hxi].
  destruct (lookup_lt_is_Some_2 x j Hj) as [xj Hxj].
  rewrite Hxi, Hxj. eexists. split; [reflexivity|].
  by apply Permutation_insert_swap.
Qed.

(** The shuffle loop never leaves the list: it ends normally, with a
    permutation of the list, and does not touch the files. *)
Lemma shuffle_loop_permutes indices : forall w,
  Forall (fun i => (i < length (Split.w_docs w))%nat) indices ->
  exists w', Split.shuffle_loop indices w = (w', Ok tt)
    /\ Split.w_docs w' ≡ₚ Split.w_docs w
    /\ Split.w_files w' = Split.w_files w.
Proof.
  induction indices as [|i indices IH]; intros w Hin; simpl.
  - exists w. by repeat split.
  - inversion Hin as [|? ? Hi Hrest]; subst.
    unfold mbind, Split.M_bind, Split.draw.
    pose proof (randbelow_lt (S i) (Split.w_rng w) (Nat.lt_0_succ i)) as Hj.
    destruct (randbelow (S i) (Split.w_rng w)) as [j g]. simpl in Hj.
    unfold Split.swap_docs. cbn [Split.w_docs Split.w_rng Split.w_files].
    destruct (swap_in_range (Split.w_docs w) i j) as (x' & -> & Hperm); [lia..|].
    edestruct (IH {| Split.w_rng := g; Split.w_docs := x'; Split.w_files := Split.w_files w |})
      as (w' & -> & Hperm' & Hfiles').
    { cbn [Split.w_docs]. rewrite (Permutation_length Hperm). exact Hrest. }
    exists w'. split; [reflexivity|]. split; [|exact Hfiles'].
    cbn [Split.w_docs] in Hperm'. by rewrite Hperm'.
Qed.

Lemma random_shuffle_permutes w :
  exists w', Split.random_shuffle w = (w', Ok tt)
    /\ Split.w_docs w' ≡ₚ Split.w_docs w
    /\ Split.w_files w' = Split.w_files w.
Proof.
  unfold Split.random_shuffle. apply shuffle_loop_permutes.
  apply Forall_forall. intros i Hi.
  rewrite list_elem_of_In, <- in_rev, in_seq in Hi. lia.
Qed.

(** The shuffle reads the generator and the list only. *)
Lemma shuffle_loop_frame indices : forall g x files files',
  let r := Split.shuffle_loop indices (Split.mkWorld g x files) in
  Split.shuffle_loop indices (Split.mkWorld g x files')
  = (Split.mkWorld (Split.w_rng r.1) (Split.w_docs r.1) files', r.2).
Proof.
  induction indices as [|i indices IH]; intros g x files files'; simpl; [reflexivity|].
  unfold mbind, Split.M_bind, Split.draw. cbn [Split.w_docs Split.w_rng Split.w_files].
  destruct (randbelow (S i) g) as [j g']. unfold Split.swap_docs.
  cbn [Split.w_docs Split.w_rng Split.w_files].
  destruct (Split.swap x i j) as [x'|e]; [|reflexivity].
  apply IH.
Qed.

Lemma partition_unfold tot_ents test_size dev_size w :
  Split.partition tot_ents test_size dev_size w
  = (shuffled w,
     Split.assign_loop tot_ents test_size dev_size Split.init (Split.w_docs (shuffled w))).
Proof.
  unfold Split.partition, shuffled, mbind, Split.M_bind, Split.random_seed.
  cbv beta iota. cbn [fst].
  match goal with |- context [Split.random_shuffle ?w1] =>
    destruct (random_shuffle_permutes w1) as (w' & -> & _) end.
  reflexivity.
Qed.

Lemma shuffled_docs w : Split.w_docs (shuffled w) ≡ₚ Split.w_docs w.
Proof.
  unfold shuffled.
  destruct (random_shuffle_permutes (Split.random_seed 42 w).1) as (w' & -> & Hp & _).
  exact Hp.
Qed.

Lemma shuffled_files w : Split.w_files (shuffled w) = Split.w_files w.
Proof.
  unfold shuffled.
  destruct (random_shuffle_permutes (Split.random_seed 42 w).1) as (w' & -> & _ & Hf).
  exact Hf.
Qed.

Lemma any_empty_spec (st : Split.Parts) :
  Split.any_empty st = true
  <-> Split.train_docs st = [] \/ Split.test_docs st = [] \/ Split.dev_docs st = [].
Proof.
  unfold Split.any_empty. simpl.
  destruct (Split.train_docs st), (Split.test_docs st), (Split.dev_docs st);
    simpl; intuition congruence.
Qed.

End WorldFacts.

Section DiskFacts.
Context `{Random} `{FloatOps} `{Disk}.

(** The function, case by case on the outcome of the loop. *)
Lemma split_unfold tot_ents out_dir test_size dev_size w :
  Split.train_test_dev_split tot_ents out_dir test_size dev_size w
  = match Split.assign_loop tot_ents test_size dev_size Split.init
            (Split.w_docs (shuffled w)) with
    | Raise e => (shuffled w, Raise e)
    | Ok st =>
        if Split.any_empty st
        then (shuffled w, Raise (ValueError (Split.empty_message st)))
        else persist out_dir st (shuffled w)
    end.
Proof.
  unfold Split.train_test_dev_split, mbind, Split.M_bind.
  rewrite partition_unfold.
  destruct (Split.assign_loop _ _ _ _ _) as [st|e]; [|reflexivity].
  destruct (Split.any_empty st); reflexivity.
Qed.


(** What making the directory and writing the files can come to: an
    operating-system error after none, one or two of the writes, or the
    three files written.  The generator and the list are not touched. *)
Lemma persist_outcome out_dir st w :
  Split.w_rng (persist out_dir st w).1 = Split.w_rng w
  /\ Split.w_docs (persist out_dir st w).1 = Split.w_docs w
  /\ ((exists e path, (persist out_dir st w).2 = Raise (raise_os e path)
                      /\ (Split.w_files (persist out_dir st w).1 = Split.w_files w
                          \/ Split.w_files (persist out_dir st w).1
                             = train_written out_dir st (Split.w_files w)
                          \/ Split.w_files (persist out_dir st w).1
                             = dev_written out_dir st (Split.w_files w)))
       \/ persist out_dir st w = (written out_dir st w, Ok tt)).
Proof.
  unfold persist, mbind, Split.M_bind, Split.mkdir, Split.to_disk, written,
    train_written, dev_written.
  destruct (mkdir_error out_dir (Split.w_files w)) as [e|];
    [cbn; split; [done|]; split; [done|]; left; eauto|].
  cbn [Split.w_files Split.w_docs Split.w_rng].
  destruct (write_error (out_dir +:+ "/train.spacy") (Split.w_files w)) as [e|];
    [cbn; split; [done|]; split; [done|]; left; eauto|].
  cbn [Split.w_files Split.w_docs Split.w_rng].
  destruct (write_error (out_dir +:+ "/dev.spacy") _) as [e|];
    [cbn; split; [done|]; split; [done|]; left; eauto 6|].
  cbn [Split.w_files Split.w_docs Split.w_rng].
  destruct (write_error (out_dir +:+ "/test.spacy") _) as [e|];
    [cbn; split; [done|]; split; [done|]; left; eauto 7|].
  cbn. split; [done|]. split; [done|]. by right.
Qed.



End DiskFacts.

Section Effects.
Context `{Random} `{FloatOps} `{Disk}.

Lemma random_shuffle_frame g x files files' :
  let r := Split.random_shuffle (Split.mkWorld g x files) in
  Split.random_shuffle (Split.mkWorld g x files')
  = (Split.mkWorld (Split.w_rng r.1) (Split.w_docs r.1) files', r.2).
Proof. unfold Split.random_shuffle. cbn [Split.w_docs]. apply shuffle_loop_frame. Qed.

(** C4. Determinism.  Two calls on the same list of documents with the
    same [tot_ents], [test_size] and [dev_size] assign the documents in the
    same way, whatever state the random generator was left in before each
    call ([g1], [g2]) and whatever the output directory holds: the generator
    is re-seeded with 42 before the only random step.  With the same files
    on disk the two calls agree on everything: outcome, order of [docs],
    files and generator state. *)
Theorem split_deterministic (tot_ents : Z) (out_dir : string) (test_size dev_size : float)
    (docs : list Doc) (g1 g2 : rng_state) (files1 files2 : gmap string (list Doc)) :
  (Split.partition tot_ents test_size dev_size (Split.mkWorld g1 docs files1)).2
  = (Split.partition tot_ents test_size dev_size (Split.mkWorld g2 docs files2)).2
  /\ Split.train_test_dev_split tot_ents out_dir test_size dev_size
       (Split.mkWorld g1 docs files1)
     = Split.train_test_dev_split tot_ents out_dir test_size dev_size
         (Split.mkWorld g2 docs files1).
Proof.
  split; [|reflexivity].
  rewrite !partition_unfold. cbn [snd]. unfold shuffled, Split.random_seed.
  cbn [fst Split.w_docs Split.w_files].
  rewrite (random_shuffle_frame (seed 42) docs files1 files2). reflexivity.
Qed.

(** The iterations for the indices below [k] leave position [k] alone. *)
Lemma shuffle_loop_keeps indices (k : nat) : forall w,
  Forall (fun i => (i < k)%nat) indices ->
  Split.w_docs (Split.shuffle_loop indices w).1 !! k = Split.w_docs w !! k.
Proof.
  induction indices as [|i indices IH]; intros w Hin; [reflexivity|].
  inversion Hin as [|? ? Hi Hrest]; subst. simpl.
  unfold mbind, Split.M_bind, Split.draw.
  pose proof (randbelow_lt (S i) (Split.w_rng w) (Nat.lt_0_succ i)) as Hj.
  destruct (randbelow (S i) (Split.w_rng w)) as [j g]. simpl in Hj.
  unfold Split.swap_docs, Split.swap. cbn [Split.w_docs Split.w_rng Split.w_files].
  destruct (Split.w_docs w !! j) as [xj|]; [|reflexivity].
  destruct (Split.w_docs w !! i) as [xi|]; [|reflexivity].
  rewrite (IH _ Hrest). cbn [Split.w_docs].
  rewrite !list_lookup_insert_ne by lia. reflexivity.
Qed.

(** The first iteration of the shuffle puts the element at the index it
    draws in the last position, and no later iteration moves it. *)
Lemma random_shuffle_last w d :
  Split.w_docs w !! (randbelow (length (Split.w_docs w)) (Split.w_rng w)).1 = Some d ->
  Split.w_docs (Split.random_shuffle w).1 !! (length (Split.w_docs w) - 1)%nat = Some d.
Proof.
  intros Hd. unfold Split.random_shuffle.
  destruct (length (Split.w_docs w)) as [|[|m]] eqn:Hlen.
  - apply lookup_lt_Some in Hd. lia.
  - pose proof (randbelow_lt 1 (Split.w_rng w) Nat.lt_0_1) as Hj. simpl.
    replace (randbelow 1 (Split.w_rng w)).1 with 0%nat in Hd by lia. exact Hd.
  - replace (S (S m) - 1)%nat with (S m) by lia.
    rewrite seq_S, rev_unit. simpl.
    unfold mbind, Split.M_bind, Split.draw.
    destruct (randbelow (S (S m)) (Split.w_rng w)) as [j g]. simpl in Hd.
    unfold Split.swap_docs, Split.swap. cbn [Split.w_docs Split.w_rng Split.w_files].
    rewrite Hd.
    destruct (lookup_lt_is_Some_2 (Split.w_docs w) (S m)) as [xi Hxi]; [lia|].
    rewrite Hxi.
    rewrite shuffle_loop_keeps.
    + cbn [Split.w_docs]. destruct (decide (j = S m)) as [->|Hne].
      * rewrite list_lookup_insert_eq by (rewrite length_insert; lia). congruence.
      * rewrite list_lookup_insert_ne by done.
        apply list_lookup_insert_eq. lia.
    + apply Forall_forall. intros i Hi.
      rewrite list_elem_of_In, <- in_rev, in_seq in Hi. lia.
Qed.

Lemma split_docs tot_ents out_dir test_size dev_size w :
  Split.w_docs (Split.train_test_dev_split tot_ents out_dir test_size dev_size w).1
  = Split.w_docs (shuffled w).
Proof.
  rewrite split_unfold.
  destruct (Split.assign_loop _ _ _ _ _) as [st|e]; [|reflexivity].
  destruct (Split.any_empty st); [reflexivity|].
  by destruct (persist_outcome out_dir st (shuffled w)) as (_ & -> & _).
Qed.

(** C10. The caller's list after the call.  Whether the call returns or
    raises, the list bound to [docs] has been shuffled in place from the
    generator seeded with 42: its last position holds the document that was
    at the first index drawn, [randbelow(len(docs))] from the seed-42 state;
    it is the list [random.seed(42); random.shuffle(docs)] leaves; and it
    holds the same documents as before, each as often as before. *)
Theorem docs_shuffled_in_place (tot_ents : Z) (out_dir : string)
    (test_size dev_size : float) (w : Split.World) :
  let w' := (Split.train_test_dev_split tot_ents out_dir test_size dev_size w).1 in
  (forall d,
     Split.w_docs w !! (randbelow (length (Split.w_docs w)) (seed 42)).1 = Some d ->
     Split.w_docs w' !! (length (Split.w_docs w) - 1)%nat = Some d)
  /\ Split.w_docs w' = Split.w_docs (Split.random_shuffle (Split.random_seed 42 w).1).1
  /\ Split.w_docs w' ≡ₚ Split.w_docs w.
Proof.
  intros w'. subst w'. rewrite split_docs.
  split; [|split; [reflexivity|apply shuffled_docs]].
  intros d Hd. unfold shuffled.
  apply (random_shuffle_last (Split.random_seed 42 w).1 d). exact Hd.
Qed.

End Effects.

Section MainFacts.
Context `{Random} `{FloatOps} `{Disk} `{Spacy}.

(** C9. Division by a zero total.  With [tot_ents = 0] and at least one
    document, [train_test_dev_split] raises [ZeroDivisionError]: whichever
    partition the first document goes to, the ratio update divides by
    [tot_ents].  [main] does not catch it: when the conversion returns a
    non-empty list of documents and a zero total, [main] ends with
    [ZeroDivisionError]. *)
Theorem zero_total_raises (out_dir : string) (test_size dev_size : float)
    (w : Split.World) :
  Split.w_docs w <> [] ->
  (Split.train_test_dev_split 0 out_dir test_size dev_size w).2 = Raise ZeroDivisionError
  /\ (forall st doc, Split.assign 0 test_size dev_size st doc = Raise ZeroDivisionError)
  /\ Split.caught ZeroDivisionError = false
  /\ (forall unzip zip_file tasks conv w0,
        unzip zip_file = Ok tasks ->
        Convert.create_spacy_docs tasks = Ok conv ->
        Convert.docs conv <> [] ->
        Convert.tot_ents conv = 0 ->
        (Split.main unzip zip_file out_dir test_size dev_size w0).2
        = Raise ZeroDivisionError).
Proof.
  intros Hne.
  assert (forall w0, Split.w_docs w0 <> [] ->
            (Split.train_test_dev_split 0 out_dir test_size dev_size w0).2
            = Raise ZeroDivisionError) as Hsplit.
  { intros w0 Hne0. rewrite split_unfold.
    pose proof (shuffled_docs w0) as Hp.
    destruct (Split.w_docs (shuffled w0)) as [|d ds].
    - apply Permutation_nil_l in Hp. congruence.
    - simpl. by rewrite assign_zero_divisor. }
  split; [by apply Hsplit|]. split; [intros; by apply assign_zero_divisor|].
  split; [reflexivity|].
  intros unzip zip_file tasks conv w0 Hzip Hconv Hdocs Htot.
  unfold Split.main, mbind, Split.M_bind, Split.lift, Split.bind_docs.
  rewrite Hzip, Hconv, Htot.
  match goal with |- context [Split.train_test_dev_split 0 _ _ _ ?w1] =>
    pose proof (Hsplit w1) as Hw1;
    destruct (Split.train_test_dev_split 0 out_dir test_size dev_size w1) as [w2 r]
  end.
  cbn [snd Split.w_docs] in Hw1. rewrite Hw1 by assumption. reflexivity.
Qed.

End MainFacts.


(** * The model at work

    The theorems applied to the implementations of [Sample], and runs of
    the model on small inputs. *)

Section Runs.
#[local] Existing Instances Sample.rational Sample.lcg Sample.words Sample.disk.

Lemma entity_conservation_witness :
  Convert.create_spacy_docs Sample.tasks = Ok Sample.converted
  /\ Convert.tot_ents Sample.converted
     = resolved (Convert.docs Sample.converted) + Convert.misaligned Sample.converted.
Proof.
  split; [reflexivity|].
  apply (entity_conservation Sample.tasks Sample.converted). reflexivity.
Defined.

Example conversion_counts :
  Convert.tot_ents Sample.converted = 4
  /\ resolved (Convert.docs Sample.converted) = 3
  /\ Convert.misaligned Sample.converted = 1.
Proof. by vm_compute. Qed.

Lemma sample_tasks_labelled : TaskFilter.labelled Sample.tasks.
Proof.
  unfold TaskFilter.labelled, Sample.tasks.
  repeat (apply Forall_cons; split; [intros _; simpl; repeat constructor; discriminate|]).
  apply Forall_nil_2.
Defined.

Lemma task_filter_refines_witness :
  TaskFilter.labelled Sample.tasks
  /\ Convert.create_spacy_docs Sample.tasks
     = TaskFilter.align_all Convert.init (TaskFilter.task_filter Sample.tasks).
Proof.
  split; [exact sample_tasks_labelled|].
  apply (task_filter_refines Sample.tasks sample_tasks_labelled).
Defined.

Example filtered_tasks :
  TaskFilter.task_filter Sample.tasks
  = [("buy BTC now", [(4, 7, "COIN"); (0, 2, "COIN")]);
     ("ETH and BTC", [(0, 3, "COIN"); (8, 11, "COIN")])].
Proof. by vm_compute. Qed.

(** A result without a label makes the conversion raise. *)
Example unlabelled_result_raises :
  Convert.create_spacy_docs [mkTask [mkCompletion [mkResultEntry (mkValue 0 3 [])] None] "ETH"]
  = Raise IndexError.
Proof. reflexivity. Qed.

Lemma fill_order_witness :
  Split.assign_loop 5 Sample.fifth Sample.fifth Split.init [Sample.doc_n "a" 1]
  = Ok Sample.after_a
  /\ Split.assign 5 Sample.fifth Sample.fifth Sample.after_a (Sample.doc_n "b" 1)
     = Ok Sample.after_b
  /\ receives Test Sample.after_a Sample.after_b (Sample.doc_n "b" 1)
  /\ dev_below Sample.fifth Sample.after_a = false.
Proof.
  split; [reflexivity|]. split; [reflexivity|]. split; [reflexivity|].
  apply (proj1 (fill_order 5 Sample.fifth Sample.fifth [Sample.doc_n "a" 1]
                  (Sample.doc_n "b" 1) Sample.after_a Sample.after_b eq_refl eq_refl)).
  reflexivity.
Defined.

Lemma zero_total_raises_witness :
  Split.w_docs (Sample.world Sample.five_docs) <> []
  /\ (Split.train_test_dev_split 0 "out" Sample.fifth Sample.fifth
        (Sample.world Sample.five_docs)).2 = Raise ZeroDivisionError.
Proof.
  split; [discriminate|].
  apply (zero_total_raises "out" Sample.fifth Sample.fifth (Sample.world Sample.five_docs)).
  discriminate.
Defined.

(** Five documents of one entity each, targets 1/5 and 1/5: one document
    for [dev], one for [test], three for [train]. *)
Example five_documents_split :
  let w' := (Split.train_test_dev_split 5 "out" Sample.fifth Sample.fifth
               (Sample.world Sample.five_docs)) in
  w'.2 = Ok tt
  /\ length <$> Split.w_files w'.1 !! "out/train.spacy" = Some 3%nat
  /\ length <$> Split.w_files w'.1 !! "out/dev.spacy" = Some 1%nat
  /\ length <$> Split.w_files w'.1 !! "out/test.spacy" = Some 1%nat.
Proof. by vm_compute. Qed.

(** A single document holding every entity: [test] and [train] stay empty. *)
Example single_document_fails :
  Split.train_test_dev_split 3 "out" Sample.fifth Sample.fifth
    (Sample.world [Sample.doc_n "a" 3])
  = (Split.mkWorld 42%N [Sample.doc_n "a" 3] ∅,
     Raise (ValueError "One or more partitions are empty! train: 0, test: 0, dev: 1")).
Proof. by vm_compute. Qed.

(** The caller's list really is reordered. *)
Example caller_list_reordered :
  Split.w_docs (Split.train_test_dev_split 5 "out" Sample.fifth Sample.fifth
                  (Sample.world Sample.five_docs)).1
  <> Sample.five_docs.
Proof. vm_compute. discriminate. Qed.

(** [main] on an archive whose only task has no annotation: one document,
    a total of zero, and the division error leaves [main]; a missing archive
    is caught. *)
Example main_zero_total :
  (Split.main Sample.unzip "export.zip" "out" Sample.fifth Sample.fifth (Sample.world [])).2
  = Raise ZeroDivisionError.
Proof. by vm_compute. Qed.

Example main_missing_archive :
  (Split.main Sample.unzip "nothing.zip" "out" Sample.fifth Sample.fifth (Sample.world [])).2
  = Ok tt.
Proof. by vm_compute. Qed.

(** A missing parent directory: the split raises at [mkdir] with nothing
    written, and [main] catches the [FileNotFoundError]. *)
Example missing_parent_directory :
  Split.train_test_dev_split 5 "nope/out" Sample.fifth Sample.fifth
    (Sample.world Sample.five_docs)
  = (shuffled (Sample.world Sample.five_docs), Raise (FileNotFoundError "nope/out")).
Proof. by vm_compute. Qed.

(** [dev.spacy] cannot be opened: [train.spacy] stays written, the other
    two files are not. *)
Example second_write_fails :
  let r := Split.train_test_dev_split 5 "locked" Sample.fifth Sample.fifth
             (Sample.world Sample.five_docs) in
  r.2 = Raise (OtherError "IsADirectoryError")
  /\ length <$> Split.w_files r.1 !! "locked/train.spacy" = Some 3%nat
  /\ Split.w_files r.1 !! "locked/dev.spacy" = None
  /\ Split.w_files r.1 !! "locked/test.spacy" = None.
Proof. by vm_compute. Qed.

End Runs.


(** * Further properties of [create_spacy_docs] *)

Section ConvertMore.
Context `{Spacy}.

Lemma annotate_returns results : forall acc anns,
  Convert.annotate results acc = Ok anns ->
  Forall (fun r => v_labels (value r) <> []) results.
Proof.
  induction results as [|r results IH]; intros acc anns Hrun; [constructor|].
  simpl in Hrun. unfold Convert.first_label in Hrun.
  destruct (v_labels (value r)) as [|l ls] eqn:Hl; [discriminate|].
  simpl in Hrun. constructor; [by rewrite Hl|eauto].
Qed.

(** A result without a label stops the loop over the results with the
    [IndexError] of [labels[0]]. *)
Lemma annotate_unlabelled results : forall acc,
  Exists (fun r => v_labels (value r) = []) results ->
  Convert.annotate results acc = Raise IndexError.
Proof.
  induction results as [|r results IH]; intros acc Hex; [by inversion Hex|].
  simpl. unfold Convert.first_label.
  destruct (v_labels (value r)) as [|l ls] eqn:Hl; [reflexivity|]. simpl.
  apply IH. inversion Hex as [? ? Hhd|? ? Htl]; subst; [congruence|exact Htl].
Qed.

(** One iteration that returns either skipped the task or aligned it. *)
Lemma process_task_returns acc task acc' :
  Convert.process_task acc task = Ok acc' ->
  (~ TaskFilter.admits task /\ acc' = acc)
  \/ (TaskFilter.admits task
      /\ Forall (fun c => Forall (fun r => v_labels (value r) <> []) (result c))
                (completions task)
      /\ Convert.align acc (TaskFilter.contribution task).1
                           (TaskFilter.contribution task).2 = Ok acc').
Proof.
  intros Hrun. destruct (decide (TaskFilter.admits task)) as [Ha|Hn].
  - right. split; [exact Ha|].
    assert (Forall (fun c => Forall (fun r => v_labels (value r) <> []) (result c))
                   (completions task)) as Hlab.
    { unfold Convert.process_task in Hrun. destruct Ha as [Hlen Hnone].
      destruct (completions task) as [|c [|c' cs]]; try discriminate.
      inversion Hnone as [|? ? Hc _]; subst. rewrite Hc in Hrun.
      apply exc_bind_ok in Hrun as (anns & Hanns & _).
      apply annotate_returns in Hanns. by repeat constructor. }
    split; [exact Hlab|]. by rewrite <- process_task_admitted.
  - left. rewrite process_task_excluded in Hrun by assumption.
    injection Hrun as <-. by split.
Qed.

Lemma contribution_length task :
  length (TaskFilter.contribution task).2
  = length (concat (map result (completions task))).
Proof. unfold TaskFilter.contribution. simpl. apply length_map. Qed.

Lemma tasks_loop_returns tasks : forall acc acc',
  Convert.tasks_loop acc tasks = Ok acc' ->
  length (Convert.docs acc')
  = (length (Convert.docs acc) + length (filter TaskFilter.admits tasks))%nat
  /\ Convert.tot_ents acc'
     = Convert.tot_ents acc + Z.of_nat (length (admitted_results tasks))
  /\ TaskFilter.labelled tasks.
Proof.
  unfold admitted_results, TaskFilter.labelled.
  induction tasks as [|t tasks IH]; intros acc acc' Hrun; simpl in Hrun.
  - injection Hrun as <-. simpl. split; [lia|]. split; [lia|constructor].
  - apply exc_bind_ok in Hrun as (acc1 & Hstep & Hrun).
    destruct (IH _ _ Hrun) as (Hdocs & Htot & Hlab).
    apply process_task_returns in Hstep as [[Hn ->]|(Ha & Hl & Halign)].
    + rewrite filter_cons_False by assumption.
      split; [exact Hdocs|]. split; [exact Htot|]. by constructor.
    + rewrite filter_cons_True by assumption.
      apply align_returns in Halign as (doc & tags & ents & doc' & _ & _ & _ & _ & ->).
      cbn [Convert.docs Convert.tot_ents] in Hdocs, Htot.
      rewrite contribution_length in Htot.
      rewrite length_app in Hdocs. simpl in *.
      rewrite length_app.
      split; [lia|]. split; [lia|]. by constructor.
Qed.

(** X1. One document per converted task: when [create_spacy_docs]
    returns, the list has as many documents as there are tasks with exactly
    one completion and no ["was_cancelled"] key. *)
Theorem one_doc_per_admitted_task (completed_tasks : list Task) (conv : Convert.Acc) :
  Convert.create_spacy_docs completed_tasks = Ok conv ->
  length (Convert.docs conv) = length (filter TaskFilter.admits completed_tasks).
Proof.
  intros Hrun. apply tasks_loop_returns in Hrun as (Hdocs & _). exact Hdocs.
Qed.

(** X2. What [tot_ents] counts: when [create_spacy_docs] returns, the
    total is the number of result entries of the converted tasks, whether
    spaCy resolved them into entities or not. *)
Theorem tot_ents_counts_annotations (completed_tasks : list Task) (conv : Convert.Acc) :
  Convert.create_spacy_docs completed_tasks = Ok conv ->
  Convert.tot_ents conv = Z.of_nat (length (admitted_results completed_tasks)).
Proof.
  intros Hrun. apply tasks_loop_returns in Hrun as (_ & Htot & _). exact Htot.
Qed.

(** X3. A result without a label is fatal: [create_spacy_docs] returns
    only if every result of every converted task has at least one label,
    because the loop over the results of a completion raises [IndexError]
    as soon as one of them has an empty list of labels. *)
Theorem returns_only_if_labelled (completed_tasks : list Task) (conv : Convert.Acc) :
  Convert.create_spacy_docs completed_tasks = Ok conv ->
  TaskFilter.labelled completed_tasks
  /\ (forall results acc,
        Exists (fun r => v_labels (value r) = []) results ->
        Convert.annotate results acc = Raise IndexError).
Proof.
  intros Hrun. apply tasks_loop_returns in Hrun as (_ & _ & Hlab).
  split; [exact Hlab|]. intros results acc. apply annotate_unlabelled.
Qed.

End ConvertMore.


(** * Further properties of the assignment loop *)

Lemma resolved_app (xs ys : list Doc) : resolved (xs ++ ys) = resolved xs + resolved ys.
Proof.
  unfold resolved. induction xs as [|x xs IH]; simpl; [lia|]. rewrite IH. lia.
Qed.

Lemma resolved_perm (xs ys : list Doc) : xs ≡ₚ ys -> resolved xs = resolved ys.
Proof.
  unfold resolved. induction 1; simpl; lia.
Qed.

Lemma app_cons_snoc {A} (p q l : list A) (d x : A) :
  p ++ d :: q = l ++ [x] ->
  (q = [] /\ p = l /\ d = x) \/ (exists q', q = q' ++ [x] /\ l = p ++ d :: q').
Proof.
  intros Heq. induction q as [|y q' _] using rev_ind.
  - left. apply app_inj_tail in Heq as [-> ->]. by repeat split.
  - right. exists q'. rewrite app_comm_cons, app_assoc in Heq.
    apply app_inj_tail in Heq as [<- ->]. by split.
Qed.

Section AssignMore.
Context `{FloatOps}.
Variables (tot_ents : Z) (test_size dev_size : float).

#[local] Abbreviation assign := (Split.assign tot_ents test_size dev_size).
#[local] Abbreviation assign_loop := (Split.assign_loop tot_ents test_size dev_size).

Ltac split_cases st :=
  unfold Split.assign, Split.divide, dev_below, test_below in *;
  destruct (flt (Split.cur_dev_ratio st) dev_size) eqn:?;
    [|destruct (flt (Split.cur_test_ratio st) test_size) eqn:?];
  destruct (decide (tot_ents = 0));
  unfold mbind, mret, exc_bind, exc_ret in *; simplify_eq/=.

Lemma ratio_of_snoc (ds : list Doc) (d : Doc) :
  ratio_of tot_ents (ds ++ [d])
  = truediv (resolved ds + Z.of_nat (length (doc_ents d))) tot_ents.
Proof.
  unfold ratio_of. rewrite <- resolved_snoc. by destruct ds.
Qed.

Lemma assign_counted st doc st' : assign st doc = Ok st' -> counted st -> counted st'.
Proof.
  unfold counted. intros Hrun (Ht & Hd & Hs).
  split_cases st; rewrite ?resolved_snoc; lia.
Qed.

Lemma assign_tracked st doc st' :
  assign st doc = Ok st' -> counted st -> tracked tot_ents st -> tracked tot_ents st'.
Proof.
  unfold counted, tracked. intros Hrun (Ht & Hd & Hs) (Hrt & Hrd & Hrs).
  split_cases st; rewrite ?ratio_of_snoc, <- ?Ht, <- ?Hd, <- ?Hs; auto.
Qed.

Lemma filled_snoc target ds doc :
  filled_while_below tot_ents target ds ->
  flt (ratio_of tot_ents ds) target = true ->
  filled_while_below tot_ents target (ds ++ [doc]).
Proof.
  unfold filled_while_below. intros Hfilled Hbelow p d q Heq.
  symmetry in Heq. apply app_cons_snoc in Heq as [(_ & -> & _)|(q' & _ & ->)]; eauto.
Qed.

Lemma assign_filled st doc st' :
  assign st doc = Ok st' -> tracked tot_ents st ->
  filled_while_below tot_ents dev_size (Split.dev_docs st)
  /\ filled_while_below tot_ents test_size (Split.test_docs st) ->
  filled_while_below tot_ents dev_size (Split.dev_docs st')
  /\ filled_while_below tot_ents test_size (Split.test_docs st').
Proof.
  unfold tracked. intros Hrun (Hrt & Hrd & Hrs) (Hfd & Hfs).
  split_cases st; split; auto; apply filled_snoc; auto; congruence.
Qed.

Lemma assign_segments st doc st' seen :
  assign st doc = Ok st' ->
  in_segments test_size dev_size seen st ->
  in_segments test_size dev_size (seen ++ [doc]) st'.
Proof.
  intros Hrun (Hseen & Hdev & Htest).
  pose proof (assign_greedy _ _ _ _ _ _ Hrun) as Hg.
  unfold in_segments, receives, untouched, docs_of in *.
  destruct (dev_below dev_size st) eqn:Hd.
  - destruct Hg as (Hr & Hut & Hutr & _).
    assert (Split.test_docs st = []) as Etest.
    { destruct (Split.test_docs st); [done|]. by discriminate Hdev; left. }
    assert (Split.train_docs st = []) as Etrain.
    { destruct (Split.train_docs st); [done|]. by discriminate Hdev; right. }
    rewrite Hr, Hut, Hutr, Etest, Etrain in *.
    split; [by rewrite Hseen, !app_nil_r|]. split; [intros [?|?]; done|done].
  - destruct (test_below test_size st) eqn:Ht.
    + destruct Hg as (Hr & Hud & Hutr & Hratio).
      assert (Split.train_docs st = []) as Etrain.
      { destruct (Split.train_docs st); [done|]. by discriminate Htest. }
      rewrite Hr, Hud, Hutr, Etrain in *.
      split; [by rewrite Hseen, !app_nil_r, <- app_assoc|].
      split; [|done]. intros _. unfold dev_below in *. by rewrite Hratio.
    + destruct Hg as (Hr & Hud & Hut & Hrd & Hrs).
      rewrite Hr, Hud, Hut.
      split; [by rewrite Hseen, !app_assoc|].
      unfold dev_below, test_below in *. rewrite Hrd, Hrs. by split.
Qed.

(** The invariants along the loop. *)
Lemma assign_loop_invariants docs : forall st st' seen,
  assign_loop st docs = Ok st' ->
  counted st -> tracked tot_ents st ->
  in_segments test_size dev_size seen st ->
  filled_while_below tot_ents dev_size (Split.dev_docs st)
  /\ filled_while_below tot_ents test_size (Split.test_docs st) ->
  counted st' /\ tracked tot_ents st'
  /\ in_segments test_size dev_size (seen ++ docs) st'
  /\ filled_while_below tot_ents dev_size (Split.dev_docs st')
  /\ filled_while_below tot_ents test_size (Split.test_docs st').
Proof.
  induction docs as [|d docs IH]; intros st st' seen Hrun Hc Ht Hs Hf; simpl in Hrun.
  - injection Hrun as <-. rewrite app_nil_r. destruct Hf as [Hfd Hfs].
    split; [|split; [|split; [|split]]]; assumption.
  - apply exc_bind_ok in Hrun as (st1 & Hstep & Hrun).
    replace (seen ++ d :: docs) with ((seen ++ [d]) ++ docs) by by rewrite <- app_assoc.
    apply (IH _ _ _ Hrun);
      eauto using assign_counted, assign_tracked, assign_segments, assign_filled.
Qed.

Lemma init_invariants :
  counted Split.init /\ tracked tot_ents Split.init
  /\ in_segments test_size dev_size [] Split.init
  /\ filled_while_below tot_ents dev_size (Split.dev_docs Split.init)
  /\ filled_while_below tot_ents test_size (Split.test_docs Split.init).
Proof.
  unfold counted, tracked, in_segments, filled_while_below. simpl.
  split; [done|]. split; [done|].
  split; [split; [done|]; split; [intros [?|?]; done|done]|].
  split; intros p d q Heq; by destruct p.
Qed.

Lemma run_invariants docs st :
  assign_loop Split.init docs = Ok st ->
  counted st /\ tracked tot_ents st
  /\ in_segments test_size dev_size docs st
  /\ filled_while_below tot_ents dev_size (Split.dev_docs st)
  /\ filled_while_below tot_ents test_size (Split.test_docs st).
Proof.
  intros Hrun. destruct init_invariants as (Hc & Ht & Hs & Hf).
  apply (assign_loop_invariants docs _ _ [] Hrun Hc Ht Hs Hf).
Qed.

(** Every document of a completed run, seen from the run: the state [s]
    the loop is in when the document comes, the state [s'] one iteration
    later, and the choice of the partition from the entity ratios of the
    documents already assigned. *)
Lemma run_step_greedy pre doc post st :
  assign_loop Split.init (pre ++ doc :: post) = Ok st ->
  exists s s',
    assign_loop Split.init pre = Ok s
    /\ assign_loop s [doc] = Ok s'
    /\ assign_loop s' post = Ok st
    /\ counted s /\ tracked tot_ents s
    /\ if flt (ratio_of tot_ents (Split.dev_docs s)) dev_size then
         receives Dev s s' doc /\ untouched Test s s' /\ untouched Train s s'
       else if flt (ratio_of tot_ents (Split.test_docs s)) test_size then
         receives Test s s' doc /\ untouched Dev s s' /\ untouched Train s s'
       else
         receives Train s s' doc /\ untouched Dev s s' /\ untouched Test s s'.
Proof.
  intros Hrun. rewrite assign_loop_app in Hrun.
  apply exc_bind_ok in Hrun as (s & Hpre & Hrun). simpl in Hrun.
  apply exc_bind_ok in Hrun as (s' & Hstep & Hpost).
  exists s, s'. split; [exact Hpre|]. split; [by simpl; rewrite Hstep|].
  split; [exact Hpost|].
  destruct (run_invariants _ _ Hpre) as (Hc & Ht & _).
  split; [exact Hc|]. split; [exact Ht|].
  pose proof (assign_greedy _ _ _ _ _ _ Hstep) as Hg.
  destruct Ht as (_ & Hrd & Hrs). unfold dev_below, test_below in Hg.
  rewrite Hrd, Hrs in Hg.
  destruct (flt (ratio_of tot_ents (Split.dev_docs s)) dev_size);
    [|destruct (flt (ratio_of tot_ents (Split.test_docs s)) test_size)];
    destruct Hg as (? & ? & ? & ?); auto.
Qed.

End AssignMore.

(** * Further properties of [train_test_dev_split] *)

Section SplitMore.
Context `{Random} `{FloatOps} `{Disk}.

Lemma partition_returns tot_ents test_size dev_size w st :
  (Split.partition tot_ents test_size dev_size w).2 = Ok st ->
  Split.assign_loop tot_ents test_size dev_size Split.init (Split.w_docs (shuffled w))
  = Ok st
  /\ (Split.partition tot_ents test_size dev_size w).1 = shuffled w.
Proof. rewrite partition_unfold. cbn [fst snd]. by intros ->. Qed.

Lemma split_returns tot_ents out_dir test_size dev_size w :
  (Split.train_test_dev_split tot_ents out_dir test_size dev_size w).2 = Ok tt ->
  exists st,
    (Split.partition tot_ents test_size dev_size w).2 = Ok st
    /\ Split.any_empty st = false
    /\ (Split.train_test_dev_split tot_ents out_dir test_size dev_size w).1
       = written out_dir st (shuffled w).
Proof.
  rewrite split_unfold, partition_unfold. cbn [snd].
  destruct (Split.assign_loop _ _ _ _ _) as [st|e]; [|discriminate].
  destruct (Split.any_empty st) eqn:Hempty; [discriminate|].
  intros Hok. exists st. split; [reflexivity|]. split; [exact Hempty|].
  destruct (persist_outcome out_dir st (shuffled w))
    as (_ & _ & [(e & path & He & _)|Hdone]).
  - rewrite He in Hok. discriminate.
  - by rewrite Hdone.
Qed.

Lemma not_any_empty st :
  Split.any_empty st = false ->
  Split.train_docs st <> [] /\ Split.test_docs st <> [] /\ Split.dev_docs st <> [].
Proof.
  intros Hempty. pose proof (any_empty_spec st) as [_ Hany].
  repeat split; intros Heq; rewrite Hany in Hempty; auto; discriminate.
Qed.

(** C1. Partition coverage by the greedy rule.  When [tot_ents] is not
    zero (or there is no document) the assignment completes.  [train], [dev]
    and [test] then hold together exactly the documents of the input list,
    each as often as the input has it.  Every document of the shuffled list
    reached the loop in a state [s] whose counters and ratios are those of
    the documents assigned before it, and went to [dev] if the entity ratio
    of [dev] was below [dev_size], else to [test] if the entity ratio of
    [test] was below [test_size], else to [train], and to no other
    partition; the rest of the list took the loop from there to the
    partitions returned, whose counters and ratios are those of their
    documents. *)
Theorem partition_coverage (tot_ents : Z) (test_size dev_size : float) (w : Split.World) :
  tot_ents <> 0 \/ Split.w_docs w = [] ->
  exists st,
    (Split.partition tot_ents test_size dev_size w).2 = Ok st
    /\ Split.train_docs st ++ Split.dev_docs st ++ Split.test_docs st
       ≡ₚ Split.w_docs (Split.partition tot_ents test_size dev_size w).1
    /\ Split.train_docs st ++ Split.dev_docs st ++ Split.test_docs st ≡ₚ Split.w_docs w
    /\ counted st /\ tracked tot_ents st
    /\ forall pre doc post,
         Split.w_docs (Split.partition tot_ents test_size dev_size w).1
         = pre ++ doc :: post ->
         exists s s',
           Split.assign_loop tot_ents test_size dev_size Split.init pre = Ok s
           /\ Split.assign_loop tot_ents test_size dev_size s [doc] = Ok s'
           /\ Split.assign_loop tot_ents test_size dev_size s' post = Ok st
           /\ counted s /\ tracked tot_ents s
           /\ if flt (ratio_of tot_ents (Split.dev_docs s)) dev_size then
                receives Dev s s' doc /\ untouched Test s s' /\ untouched Train s s'
              else if flt (ratio_of tot_ents (Split.test_docs s)) test_size then
                receives Test s s' doc /\ untouched Dev s s' /\ untouched Train s s'
              else
                receives Train s s' doc /\ untouched Dev s s' /\ untouched Test s s'.
Proof.
  intros Hpre. rewrite partition_unfold. cbn [fst snd].
  assert (exists st, Split.assign_loop tot_ents test_size dev_size Split.init
                       (Split.w_docs (shuffled w)) = Ok st) as [st Hst].
  { destruct Hpre as [Hne|Hnil].
    - by apply assign_loop_defined.
    - pose proof (shuffled_docs w) as Hp. rewrite Hnil in Hp.
      apply Permutation_nil_r in Hp. rewrite Hp. simpl. eauto. }
  exists st. split; [exact Hst|].
  pose proof (assign_loop_covers _ _ _ _ _ _ Hst) as Hcov. unfold all_docs in Hcov.
  simpl in Hcov. split; [exact Hcov|]. split.
  { rewrite Hcov. apply shuffled_docs. }
  destruct (run_invariants _ _ _ _ _ Hst) as (Hc & Ht & _).
  split; [exact Hc|]. split; [exact Ht|].
  intros pre doc post Hdocs. rewrite Hdocs in Hst.
  by apply run_step_greedy.
Qed.

(** X4. The counters of the split: when the assignment completes, each
    partition's entity count is the number of entities of its documents, and
    the three counts add up to the entities of the input documents. *)
Theorem counts_match_documents (tot_ents : Z) (test_size dev_size : float)
    (w : Split.World) (st : Split.Parts) :
  (Split.partition tot_ents test_size dev_size w).2 = Ok st ->
  Split.train_count st = resolved (Split.train_docs st)
  /\ Split.dev_count st = resolved (Split.dev_docs st)
  /\ Split.test_count st = resolved (Split.test_docs st)
  /\ Split.train_count st + Split.dev_count st + Split.test_count st
     = resolved (Split.w_docs w).
Proof.
  intros Hrun. apply partition_returns in Hrun as [Hrun _].
  apply run_invariants in Hrun as ((Ht & Hd & Hs) & _ & (Hseen & _) & _).
  repeat split; try assumption.
  rewrite <- (resolved_perm _ _ (shuffled_docs w)), Hseen, !resolved_app. lia.
Qed.

(** X5. The partitions are consecutive segments of the shuffled list:
    when the assignment completes, the list left in [docs] is the [dev]
    documents, then the [test] documents, then the [train] documents, each
    in the order of the list. *)
Theorem partitions_are_segments (tot_ents : Z) (test_size dev_size : float)
    (w : Split.World) (st : Split.Parts) :
  (Split.partition tot_ents test_size dev_size w).2 = Ok st ->
  Split.w_docs (Split.partition tot_ents test_size dev_size w).1
  = Split.dev_docs st ++ Split.test_docs st ++ Split.train_docs st.
Proof.
  intros Hrun. apply partition_returns in Hrun as [Hrun ->].
  apply run_invariants in Hrun as (_ & _ & (Hseen & _) & _). exact Hseen.
Qed.

(** X6. Each of [dev] and [test] is filled just up to its target: every
    document of [dev] (of [test]) arrived while the ratio of the documents
    already there was below the target, and a later partition holds a
    document only if the ratio of the whole earlier partition is no longer
    below its target. *)
Theorem filled_up_to_target (tot_ents : Z) (test_size dev_size : float)
    (w : Split.World) (st : Split.Parts) :
  (Split.partition tot_ents test_size dev_size w).2 = Ok st ->
  filled_while_below tot_ents dev_size (Split.dev_docs st)
  /\ filled_while_below tot_ents test_size (Split.test_docs st)
  /\ (Split.test_docs st <> [] \/ Split.train_docs st <> [] ->
        flt (ratio_of tot_ents (Split.dev_docs st)) dev_size = false)
  /\ (Split.train_docs st <> [] ->
        flt (ratio_of tot_ents (Split.test_docs st)) test_size = false).
Proof.
  intros Hrun. apply partition_returns in Hrun as [Hrun _].
  apply run_invariants in Hrun
    as (_ & (_ & Hrd & Hrs) & (_ & Hdev & Htest) & Hfd & Hfs).
  unfold dev_below, test_below in *. rewrite Hrd in Hdev. rewrite Hrs in Htest.
  by repeat split.
Qed.

(** X7. A split that succeeds has met both targets: the ratio of [dev]
    is not below [dev_size] and the ratio of [test] is not below
    [test_size]. *)
Theorem success_meets_targets (tot_ents : Z) (out_dir : string)
    (test_size dev_size : float) (w : Split.World) :
  (Split.train_test_dev_split tot_ents out_dir test_size dev_size w).2 = Ok tt ->
  exists st,
    (Split.partition tot_ents test_size dev_size w).2 = Ok st
    /\ flt (ratio_of tot_ents (Split.dev_docs st)) dev_size = false
    /\ flt (ratio_of tot_ents (Split.test_docs st)) test_size = false.
Proof.
  intros Hok. apply split_returns in Hok as (st & Hrun & Hempty & _).
  exists st. split; [exact Hrun|].
  apply not_any_empty in Hempty as (Htrain & _ & _).
  apply partition_returns in Hrun as [Hrun _].
  apply run_invariants in Hrun as (_ & (_ & Hrd & Hrs) & (_ & Hdev & Htest) & _).
  unfold dev_below, test_below in *. rewrite Hrd in Hdev. rewrite Hrs in Htest.
  split; auto.
Qed.

(** X8. A split that succeeds had at least three documents. *)
Theorem needs_three_documents (tot_ents : Z) (out_dir : string)
    (test_size dev_size : float) (w : Split.World) :
  (Split.train_test_dev_split tot_ents out_dir test_size dev_size w).2 = Ok tt ->
  (3 <= length (Split.w_docs w))%nat.
Proof.
  intros Hok. apply split_returns in Hok as (st & Hrun & Hempty & _).
  apply not_any_empty in Hempty as (Htrain & Htest & Hdev).
  apply partition_returns in Hrun as [Hrun _].
  apply run_invariants in Hrun as (_ & _ & (Hseen & _) & _).
  rewrite <- (Permutation_length (shuffled_docs w)), Hseen, !length_app.
  destruct (Split.train_docs st), (Split.test_docs st), (Split.dev_docs st);
    simpl; try done; lia.
Qed.

(** X9. A target that zero is not below makes the split fail: if
    [0 < dev_size] or [0 < test_size] is false, that partition never
    receives a document and the call never returns normally. *)
Theorem target_not_above_zero_fails (tot_ents : Z) (out_dir : string)
    (test_size dev_size : float) (w : Split.World) :
  flt float_zero dev_size = false \/ flt float_zero test_size = false ->
  (Split.train_test_dev_split tot_ents out_dir test_size dev_size w).2 <> Ok tt
  /\ forall st,
       (Split.partition tot_ents test_size dev_size w).2 = Ok st ->
       (flt float_zero dev_size = false -> Split.dev_docs st = [])
       /\ (flt float_zero test_size = false -> Split.test_docs st = []).
Proof.
  intros Hzero.
  assert (forall st,
    (Split.partition tot_ents test_size dev_size w).2 = Ok st ->
    (flt float_zero dev_size = false -> Split.dev_docs st = [])
    /\ (flt float_zero test_size = false -> Split.test_docs st = [])) as Hstay.
  { intros st Hrun. apply partition_returns in Hrun as [Hrun _]. split; intros Hz.
    - destruct (dev_saturated_loop tot_ents test_size dev_size _ Split.init st Hz Hrun)
        as [Hu _]. exact Hu.
    - destruct (test_saturated_loop tot_ents test_size dev_size _ Split.init st Hz Hrun)
        as [Hu _]. exact Hu. }
  split; [|exact Hstay].
  intros Hok. apply split_returns in Hok as (st & Hrun & Hempty & _).
  apply not_any_empty in Hempty as (_ & Htest & Hdev).
  destruct (Hstay st Hrun) as [Hd Ht]. destruct Hzero; auto.
Qed.

(** X10. With [0 < dev_size], the first document of the shuffled list
    goes to [dev] whenever the assignment completes. *)
Theorem dev_takes_first_document (tot_ents : Z) (test_size dev_size : float)
    (w : Split.World) (st : Split.Parts) (d : Doc) (rest : list Doc) :
  flt float_zero dev_size = true ->
  (Split.partition tot_ents test_size dev_size w).2 = Ok st ->
  Split.w_docs (Split.partition tot_ents test_size dev_size w).1 = d :: rest ->
  exists more, Split.dev_docs st = d :: more.
Proof.
  intros Hpos Hrun Hdocs. apply partition_returns in Hrun as [Hrun Hw].
  rewrite Hw in Hdocs.
  apply run_invariants in Hrun as (_ & (_ & Hrd & _) & (Hseen & Hdev & _) & _).
  rewrite Hdocs in Hseen. unfold dev_below in Hdev. rewrite Hrd in Hdev.
  destruct (Split.dev_docs st) as [|d' more].
  - exfalso. simpl in *. rewrite Hpos in Hdev.
    destruct (Split.test_docs st); [|by discriminate Hdev; left].
    destruct (Split.train_docs st); [done|by discriminate Hdev; right].
  - injection Hseen as -> _. by exists more.
Qed.

End SplitMore.

Section FilesAndGenerator.
Context `{Random} `{FloatOps} `{Disk}.

Lemma paths_distinct (out_dir : string) :
  train_path out_dir <> dev_path out_dir
  /\ train_path out_dir <> test_path out_dir
  /\ dev_path out_dir <> test_path out_dir.
Proof.
  unfold train_path, dev_path, test_path.
  repeat split; intros Heq; apply (inj (String.app out_dir)) in Heq; discriminate.
Qed.

(** X11. The files of a successful split: [train.spacy], [dev.spacy] and
    [test.spacy] under [out_dir] hold the three partitions, whatever was
    there before, and no other path is touched. *)
Theorem files_written (tot_ents : Z) (out_dir : string) (test_size dev_size : float)
    (w : Split.World) :
  (Split.train_test_dev_split tot_ents out_dir test_size dev_size w).2 = Ok tt ->
  exists st,
    (Split.partition tot_ents test_size dev_size w).2 = Ok st
    /\ Split.w_files (Split.train_test_dev_split tot_ents out_dir test_size dev_size w).1
         !! train_path out_dir = Some (Split.train_docs st)
    /\ Split.w_files (Split.train_test_dev_split tot_ents out_dir test_size dev_size w).1
         !! dev_path out_dir = Some (Split.dev_docs st)
    /\ Split.w_files (Split.train_test_dev_split tot_ents out_dir test_size dev_size w).1
         !! test_path out_dir = Some (Split.test_docs st)
    /\ forall path,
         path <> train_path out_dir -> path <> dev_path out_dir ->
         path <> test_path out_dir ->
         Split.w_files (Split.train_test_dev_split tot_ents out_dir test_size dev_size w).1
           !! path = Split.w_files w !! path.
Proof.
  intros Hok. apply split_returns in Hok as (st & Hrun & _ & ->).
  exists st. split; [exact Hrun|].
  destruct (paths_distinct out_dir) as (Htd & Htt & Hdt).
  unfold written. cbn [Split.w_files]. rewrite shuffled_files.
  fold (train_path out_dir) (dev_path out_dir) (test_path out_dir).
  split; [|split; [|split]].
  - rewrite lookup_insert_ne by (by apply not_eq_sym).
    rewrite lookup_insert_ne by (by apply not_eq_sym).
    apply lookup_insert_eq.
  - rewrite lookup_insert_ne by (by apply not_eq_sym). apply lookup_insert_eq.
  - apply lookup_insert_eq.
  - intros path Hp1 Hp2 Hp3.
    by rewrite !lookup_insert_ne by (by apply not_eq_sym).
Qed.

Lemma shuffle_loop_rng indices : forall g x1 x2 files1 files2,
  length x1 = length x2 ->
  Forall (fun i => (i < length x1)%nat) indices ->
  Split.w_rng (Split.shuffle_loop indices (Split.mkWorld g x1 files1)).1
  = Split.w_rng (Split.shuffle_loop indices (Split.mkWorld g x2 files2)).1.
Proof.
  induction indices as [|i indices IH]; intros g x1 x2 files1 files2 Hlen Hin; simpl;
    [reflexivity|].
  inversion Hin as [|? ? Hi Hrest]; subst.
  unfold mbind, Split.M_bind, Split.draw. cbn [Split.w_docs Split.w_rng Split.w_files].
  pose proof (randbelow_lt (S i) g (Nat.lt_0_succ i)) as Hj.
  destruct (randbelow (S i) g) as [j g']. simpl in Hj.
  unfold Split.swap_docs. cbn [Split.w_docs Split.w_rng Split.w_files].
  destruct (swap_in_range x1 i j) as (x1' & -> & Hp1); [lia..|].
  destruct (swap_in_range x2 i j) as (x2' & -> & Hp2); [lia..|].
  apply IH.
  - by rewrite (Permutation_length Hp1), (Permutation_length Hp2).
  - by rewrite (Permutation_length Hp1).
Qed.

Lemma split_world tot_ents out_dir test_size dev_size w :
  Split.w_rng (Split.train_test_dev_split tot_ents out_dir test_size dev_size w).1
  = Split.w_rng (shuffled w).
Proof.
  rewrite split_unfold.
  destruct (Split.assign_loop _ _ _ _ _) as [st|e]; [|reflexivity].
  destruct (Split.any_empty st); [reflexivity|].
  by destruct (persist_outcome out_dir st (shuffled w)) as (-> & _).
Qed.

(** X12. The call re-seeds the generator shared with its caller: after
    it, whether it returned or raised, the state of [random] depends only on
    the number of documents, not on the state before the call, the documents
    or the other arguments. *)
Theorem generator_after_call (tot1 tot2 : Z) (out1 out2 : string)
    (test1 dev1 test2 dev2 : float) (w1 w2 : Split.World) :
  length (Split.w_docs w1) = length (Split.w_docs w2) ->
  Split.w_rng (Split.train_test_dev_split tot1 out1 test1 dev1 w1).1
  = Split.w_rng (Split.train_test_dev_split tot2 out2 test2 dev2 w2).1.
Proof.
  intros Hlen.
  rewrite !split_world.
  unfold shuffled, Split.random_seed, Split.random_shuffle.
  cbn [fst Split.w_docs]. rewrite <- Hlen. apply shuffle_loop_rng; [exact Hlen|].
  apply Forall_forall. intros i Hi.
  rewrite list_elem_of_In, <- in_rev, in_seq in Hi. lia.
Qed.

End FilesAndGenerator.

(** * Further properties of [main] *)

Section MainMore.
Context `{Random} `{FloatOps} `{Disk} `{Spacy}.
Variable unzip : string -> exc (list Task).

Lemma main_unfold zip_file out_dir test_size dev_size w :
  Split.main unzip zip_file out_dir test_size dev_size w
  = match unzip zip_file with
    | Raise e => handle e w
    | Ok tasks =>
        match Convert.create_spacy_docs tasks with
        | Raise e => handle e w
        | Ok conv =>
            let r := Split.train_test_dev_split (Convert.tot_ents conv) out_dir
                       test_size dev_size
                       (Split.mkWorld (Split.w_rng w) (Convert.docs conv) (Split.w_files w)) in
            match r.2 with
            | Raise e => handle e r.1
            | Ok _ => (r.1, Ok tt)
            end
        end
    end.
Proof.
  unfold Split.main, handle, mbind, Split.M_bind, Split.lift, Split.bind_docs.
  destruct (unzip zip_file) as [tasks|e]; [|reflexivity].
  destruct (Convert.create_spacy_docs tasks) as [conv|e]; [|reflexivity].
  cbv zeta.
  destruct (Split.train_test_dev_split _ _ _ _ _) as [w' [[]|e]]; reflexivity.
Qed.

Lemma tasks_loop_none tasks : forall acc,
  filter TaskFilter.admits tasks = [] -> Convert.tasks_loop acc tasks = Ok acc.
Proof.
  induction tasks as [|t tasks IH]; intros acc Hnone; [reflexivity|]. simpl.
  destruct (decide (TaskFilter.admits t)) as [Ha|Hn].
  - by rewrite filter_cons_True in Hnone.
  - rewrite filter_cons_False in Hnone by assumption.
    rewrite process_task_excluded by assumption. simpl. auto.
Qed.

(** X13. An export without a usable task: when no task has exactly one
    completion free of the ["was_cancelled"] key, [main] converts nothing,
    the split fails on its empty partitions, [main] catches the error and
    ends normally; no file is written. *)
Theorem main_without_usable_task (zip_file out_dir : string) (test_size dev_size : float)
    (w : Split.World) (tasks : list Task) :
  unzip zip_file = Ok tasks ->
  filter TaskFilter.admits tasks = [] ->
  Split.main unzip zip_file out_dir test_size dev_size w
  = (Split.mkWorld (seed 42) [] (Split.w_files w), Ok tt).
Proof.
  intros Hzip Hnone. rewrite main_unfold, Hzip.
  unfold Convert.create_spacy_docs. rewrite tasks_loop_none by assumption.
  reflexivity.
Qed.



(** X15. [main] measures the ratios against the annotations seen: when
    the conversion of the tasks and the assignment of its documents
    complete, the entity counts of the three partitions add up to
    [tot_ents] less the misaligned count. *)
Theorem main_counts_against_annotations (tasks : list Task) (conv : Convert.Acc)
    (test_size dev_size : float) (w : Split.World) (st : Split.Parts) :
  Convert.create_spacy_docs tasks = Ok conv ->
  Split.w_docs w = Convert.docs conv ->
  (Split.partition (Convert.tot_ents conv) test_size dev_size w).2 = Ok st ->
  Split.train_count st + Split.dev_count st + Split.test_count st
  = Convert.tot_ents conv - Convert.misaligned conv.
Proof.
  intros Hconv Hdocs Hrun.
  apply (tasks_loop_balanced tasks Convert.init conv) in Hconv; [|reflexivity].
  unfold balanced in Hconv.
  apply partition_returns in Hrun as [Hrun _].
  apply run_invariants in Hrun as ((Ht & Hd & Hs) & _ & (Hseen & _) & _).
  rewrite <- Hdocs, <- (resolved_perm _ _ (shuffled_docs w)), Hseen, !resolved_app in Hconv.
  lia.
Qed.

End MainMore.


(** * The further properties at work *)

Section MoreRuns.
#[local] Existing Instances Sample.rational Sample.lcg Sample.words Sample.disk.

Lemma partition_coverage_witness :
  exists st,
    (Split.partition 5 Sample.fifth Sample.fifth (Sample.world Sample.five_docs)).2 = Ok st
    /\ Split.train_docs st ++ Split.dev_docs st ++ Split.test_docs st ≡ₚ Sample.five_docs
    /\ counted st /\ tracked 5 st.
Proof.
  destruct (partition_coverage 5 Sample.fifth Sample.fifth (Sample.world Sample.five_docs))
    as (st & Hst & _ & Hcov & Hc & Ht & _).
  { left. discriminate. }
  exists st. split; [exact Hst|]. split; [exact Hcov|]. split; [exact Hc|exact Ht].
Defined.

(** With a total of zero, one document without entities is assigned to no
    partition: the loop raises at its first division. *)
Lemma partition_coverage_counterexample :
  ~ exists st,
      (Split.partition 0 Sample.fifth Sample.fifth
         (Sample.world [Sample.doc_n "a" 0])).2 = Ok st
      /\ Split.train_docs st ++ Split.dev_docs st ++ Split.test_docs st
         ≡ₚ [Sample.doc_n "a" 0].
Proof.
  intros (st & Hst & _). vm_compute in Hst. discriminate.
Qed.

Lemma docs_shuffled_in_place_witness :
  Split.w_docs SampleRuns.five_world !! (randbelow 5 (seed 42)).1
  = Some (Sample.doc_n "c" 1)
  /\ Split.w_docs (Split.train_test_dev_split 5 "out" Sample.fifth Sample.fifth
                     SampleRuns.five_world).1 !! 4%nat
     = Some (Sample.doc_n "c" 1)
  /\ Split.w_docs SampleRuns.five_world !! 4%nat = Some (Sample.doc_n "e" 1).
Proof.
  split; [reflexivity|]. split; [|reflexivity].
  apply (proj1 (docs_shuffled_in_place 5 "out" Sample.fifth Sample.fifth
                  SampleRuns.five_world) (Sample.doc_n "c" 1)).
  reflexivity.
Defined.

Lemma one_doc_per_admitted_task_witness :
  Convert.create_spacy_docs Sample.tasks = Ok Sample.converted
  /\ length (Convert.docs Sample.converted)
     = length (filter TaskFilter.admits Sample.tasks).
Proof.
  split; [reflexivity|].
  apply (one_doc_per_admitted_task Sample.tasks Sample.converted). reflexivity.
Defined.

Lemma tot_ents_counts_annotations_witness :
  Convert.create_spacy_docs Sample.tasks = Ok Sample.converted
  /\ Convert.tot_ents Sample.converted
     = Z.of_nat (length (admitted_results Sample.tasks)).
Proof.
  split; [reflexivity|].
  apply (tot_ents_counts_annotations Sample.tasks Sample.converted). reflexivity.
Defined.

Lemma returns_only_if_labelled_witness :
  Convert.create_spacy_docs Sample.tasks = Ok Sample.converted
  /\ TaskFilter.labelled Sample.tasks.
Proof.
  split; [reflexivity|].
  apply (returns_only_if_labelled Sample.tasks Sample.converted). reflexivity.
Defined.

Lemma counts_match_documents_witness :
  (Split.partition 5 Sample.fifth Sample.fifth SampleRuns.five_world).2
  = Ok SampleRuns.parted
  /\ Split.train_count SampleRuns.parted + Split.dev_count SampleRuns.parted
     + Split.test_count SampleRuns.parted
     = resolved (Split.w_docs SampleRuns.five_world).
Proof.
  split; [reflexivity|].
  apply (counts_match_documents 5 Sample.fifth Sample.fifth SampleRuns.five_world
           SampleRuns.parted).
  reflexivity.
Defined.

Lemma partitions_are_segments_witness :
  (Split.partition 5 Sample.fifth Sample.fifth SampleRuns.five_world).2
  = Ok SampleRuns.parted
  /\ Split.w_docs (Split.partition 5 Sample.fifth Sample.fifth SampleRuns.five_world).1
     = Split.dev_docs SampleRuns.parted ++ Split.test_docs SampleRuns.parted
       ++ Split.train_docs SampleRuns.parted.
Proof.
  split; [reflexivity|].
  apply (partitions_are_segments 5 Sample.fifth Sample.fifth SampleRuns.five_world
           SampleRuns.parted).
  reflexivity.
Defined.

Lemma filled_up_to_target_witness :
  (Split.partition 5 Sample.fifth Sample.fifth SampleRuns.five_world).2
  = Ok SampleRuns.parted
  /\ filled_while_below 5 Sample.fifth (Split.dev_docs SampleRuns.parted).
Proof.
  split; [reflexivity|].
  apply (filled_up_to_target 5 Sample.fifth Sample.fifth SampleRuns.five_world
           SampleRuns.parted).
  reflexivity.
Defined.

Lemma success_meets_targets_witness :
  (Split.train_test_dev_split 5 "out" Sample.fifth Sample.fifth SampleRuns.five_world).2
  = Ok tt
  /\ exists st,
       (Split.partition 5 Sample.fifth Sample.fifth SampleRuns.five_world).2 = Ok st
       /\ flt (ratio_of 5 (Split.dev_docs st)) Sample.fifth = false
       /\ flt (ratio_of 5 (Split.test_docs st)) Sample.fifth = false.
Proof.
  split; [by vm_compute|].
  apply (success_meets_targets 5 "out" Sample.fifth Sample.fifth SampleRuns.five_world).
  by vm_compute.
Defined.

Lemma needs_three_documents_witness :
  (Split.train_test_dev_split 5 "out" Sample.fifth Sample.fifth SampleRuns.five_world).2
  = Ok tt
  /\ (3 <= length (Split.w_docs SampleRuns.five_world))%nat.
Proof.
  split; [by vm_compute|].
  apply (needs_three_documents 5 "out" Sample.fifth Sample.fifth SampleRuns.five_world).
  by vm_compute.
Defined.

Lemma target_not_above_zero_fails_witness :
  flt float_zero (0 : Q) = false
  /\ (Split.train_test_dev_split 5 "out" Sample.fifth (0 : Q) SampleRuns.five_world).2
     <> Ok tt.
Proof.
  split; [reflexivity|].
  apply (target_not_above_zero_fails 5 "out" Sample.fifth (0 : Q) SampleRuns.five_world).
  left. reflexivity.
Defined.

Lemma dev_takes_first_document_witness :
  flt float_zero Sample.fifth = true
  /\ (Split.partition 5 Sample.fifth Sample.fifth SampleRuns.five_world).2
     = Ok SampleRuns.parted
  /\ exists more, Split.dev_docs SampleRuns.parted = Sample.doc_n "a" 1 :: more.
Proof.
  split; [reflexivity|]. split; [reflexivity|].
  apply (dev_takes_first_document 5 Sample.fifth Sample.fifth SampleRuns.five_world
           SampleRuns.parted (Sample.doc_n "a" 1)
           [Sample.doc_n "b" 1; Sample.doc_n "e" 1; Sample.doc_n "d" 1; Sample.doc_n "c" 1]);
    reflexivity.
Defined.

Lemma files_written_witness :
  (Split.train_test_dev_split 5 "out" Sample.fifth Sample.fifth SampleRuns.five_world).2
  = Ok tt
  /\ exists st,
       (Split.partition 5 Sample.fifth Sample.fifth SampleRuns.five_world).2 = Ok st
       /\ Split.w_files (Split.train_test_dev_split 5 "out" Sample.fifth Sample.fifth
                           SampleRuns.five_world).1
            !! train_path "out" = Some (Split.train_docs st).
Proof.
  split; [by vm_compute|].
  destruct (files_written 5 "out" Sample.fifth Sample.fifth SampleRuns.five_world)
    as (st & Hrun & Htrain & _); [by vm_compute|].
  exists st. split; [exact Hrun|exact Htrain].
Defined.

Lemma generator_after_call_witness :
  length (Split.w_docs SampleRuns.five_world)
  = length (Split.w_docs SampleRuns.other_world)
  /\ Split.w_rng (Split.train_test_dev_split 5 "out" Sample.fifth Sample.fifth
                    SampleRuns.five_world).1
     = Split.w_rng (Split.train_test_dev_split 0 "elsewhere" (0 : Q) Sample.fifth
                      SampleRuns.other_world).1.
Proof.
  split; [reflexivity|].
  apply (generator_after_call 5 0 "out" "elsewhere" Sample.fifth Sample.fifth (0 : Q)
           Sample.fifth SampleRuns.five_world
           SampleRuns.other_world).
  reflexivity.
Defined.

Lemma main_without_usable_task_witness :
  SampleRuns.unzip_skipped "export.zip"
  = Ok [Sample.task_skipped; Sample.task_twice; Sample.task_empty]
  /\ filter TaskFilter.admits [Sample.task_skipped; Sample.task_twice; Sample.task_empty]
     = []
  /\ Split.main SampleRuns.unzip_skipped "export.zip" "out" Sample.fifth Sample.fifth
       SampleRuns.five_world
     = (Split.mkWorld (seed 42) [] (Split.w_files SampleRuns.five_world), Ok tt).
Proof.
  split; [reflexivity|]. split; [reflexivity|].
  apply (main_without_usable_task SampleRuns.unzip_skipped "export.zip" "out"
           Sample.fifth Sample.fifth SampleRuns.five_world
           [Sample.task_skipped; Sample.task_twice; Sample.task_empty]); reflexivity.
Defined.

Lemma main_counts_against_annotations_witness :
  Convert.create_spacy_docs SampleRuns.three_tasks = Ok SampleRuns.converted_three
  /\ (Split.partition (Convert.tot_ents SampleRuns.converted_three) Sample.fifth
        Sample.fifth SampleRuns.three_world).2 = Ok SampleRuns.parted_three
  /\ Split.train_count SampleRuns.parted_three + Split.dev_count SampleRuns.parted_three
     + Split.test_count SampleRuns.parted_three
     = Convert.tot_ents SampleRuns.converted_three
       - Convert.misaligned SampleRuns.converted_three.
Proof.
  split; [reflexivity|]. split; [reflexivity|].
  apply (main_counts_against_annotations SampleRuns.three_tasks SampleRuns.converted_three
           Sample.fifth Sample.fifth SampleRuns.three_world SampleRuns.parted_three);
    reflexivity.
Defined.

(** Six annotations, two of them misaligned: the partitions hold four entities. *)
Example three_tasks_counts :
  Convert.tot_ents SampleRuns.converted_three = 6
  /\ Convert.misaligned SampleRuns.converted_three = 2
  /\ Split.train_count SampleRuns.parted_three + Split.dev_count SampleRuns.parted_three
     + Split.test_count SampleRuns.parted_three = 4.
Proof. by vm_compute. Qed.

End MoreRuns.
